(** * Availability checker: services over the relational store

    A shallow embedding of the service functions of the availability
    checker backend ([project/get_availability_service.py],
    [project/refresh_token_service.py], [project/update_user_service.py],
    [project/login_user_service.py] and the schedule and session services
    beside them) together with the part of the ORM client, clock, JWT and
    password-hash libraries they call.

    Conventions.
    - An instant ([datetime]) is an integer number of microseconds since
      1970-01-01T00:00:00 UTC, the resolution of Python's [datetime];
      a [timedelta] is a signed number of microseconds.
    - A [datetime] object is naive or aware.  [datetime.now(timezone.utc)]
      is aware, [datetime.utcnow()] and [datetime.now()] are naive, and the
      ORM client returns every [DateTime] column as an aware UTC value.
      Python refuses to compare a naive with an aware value ([Py.gt]).
    - The ORM client sends every [datetime] of a filter or of a write cut to
      whole milliseconds, a naive one taken as UTC
      ([Prisma.serialize_datetime]).
    - [timedelta.total_seconds()] and the division by 60 are binary64
      operations: the exact quotient rounded to the nearest value with a
      53-bit significand, ties to even ([Py.binary64]).  The exponent range
      is not represented; the quantities of this program are far from both
      of its ends.
    - A table is the list of its rows in the order the store scans them;
      [find_first] returns the first row that satisfies the filter.
    - The services are [async] functions that await one query after another;
      they are embedded as functions from the store (and the clock readings)
      to the new store and either a response or the exception raised.  The
      store itself does not fail. *)

From Stdlib Require Import ZArith QArith Qround List String Ascii Bool Lia Lqa.
From Stdlib Require Import DecimalString.
Import ListNotations.
Local Open Scope string_scope.
Local Open Scope Z_scope.

(** ** Python values used by the services *)

Module Py.

Definition datetime := Z.
Definition timedelta := Z.

Definition microseconds_per_second : Z := 1000000.

(** [timedelta(days=d)], [timedelta(minutes=m)] *)
Definition timedelta_days (d : Z) : timedelta :=
  d * 86400 * microseconds_per_second.
Definition timedelta_minutes (m : Z) : timedelta :=
  m * 60 * microseconds_per_second.

(** [a - b] on two datetimes *)
Definition sub (a b : datetime) : timedelta := a - b.

(** Nearest integer to [a / b], ties to even, for [0 <= a] and [0 < b]. *)
Definition round_half_even (a b : Z) : Z :=
  let q := a / b in
  let r := a mod b in
  if 2 * r <? b then q
  else if b <? 2 * r then q + 1
  else if Z.even q then q else q + 1.

(** The exponent [E] with [2^E <= a / b < 2^(E+1)], for [0 < a], [0 < b]. *)
Definition binade (a b : Z) : Z :=
  let k := Z.log2 a - Z.log2 b in
  let reaches :=
    if 0 <=? k then b * 2 ^ k <=? a else b <=? a * 2 ^ (- k) in
  if reaches then k else k - 1.

(** The binary64 value nearest to [a / b], for [0 < a] and [0 < b]: the
    quotient is scaled to [2^52 <= s < 2^53], rounded to an integer, and
    scaled back. *)
Definition binary64_pos (a b : Z) : Q :=
  let e := binade a b - 52 in
  if 0 <=? e
  then inject_Z (round_half_even a (b * 2 ^ e) * 2 ^ e)
  else Qmake (round_half_even (a * 2 ^ (- e)) b) (Z.to_pos (2 ^ (- e))).

(** The binary64 value nearest to a rational. *)
Definition binary64 (x : Q) : Q :=
  match Qnum x with
  | 0 => 0%Q
  | Z.pos p => binary64_pos (Z.pos p) (Z.pos (Qden x))
  | Z.neg p => Qopp (binary64_pos (Z.pos p) (Z.pos (Qden x)))
  end.

(** [x / y] on two floats *)
Definition truediv (x y : Q) : Q := binary64 (x / y)%Q.

(** [timedelta.total_seconds()]: the microseconds divided by [10**6], as a
    float *)
Definition total_seconds (d : timedelta) : Q := binary64 (Qmake d 1000000).

(** [int(x)] on a float: truncation toward zero *)
Definition int (x : Q) : Z := Z.quot (Qnum x) (Z.pos (Qden x)).

(** Truth value of an optional string: [None] and the empty string are
    falsy. *)
Definition truthy_str (o : option string) : bool :=
  match o with
  | Some s => negb (s =? EmptyString)%string
  | None => false
  end.

(** Truth value of a list: the empty list is falsy. *)
Definition truthy_list {A : Type} (l : list A) : bool :=
  match l with
  | [] => false
  | _ :: _ => true
  end.

(** Decimal numeral of a natural number, left-padded with zeros. *)
Fixpoint pad_zeros (n : nat) (s : string) : string :=
  match n with
  | O => s
  | S k => pad_zeros k (String "0" s)
  end.

Definition decimal (width : nat) (z : Z) : string :=
  let s := NilZero.string_of_uint (N.to_uint (Z.to_N z)) in
  pad_zeros (width - String.length s) s.

(** Proleptic Gregorian date of a day number (days since 1970-01-01). *)
Definition civil_from_days (days : Z) : Z * Z * Z :=
  let z := days + 719468 in
  let era := z / 146097 in
  let doe := z - era * 146097 in
  let yoe := (doe - doe / 1460 + doe / 36524 - doe / 146096) / 365 in
  let doy := doe - (365 * yoe + yoe / 4 - yoe / 100) in
  let mp := (5 * doy + 2) / 153 in
  let d := doy - (153 * mp + 2) / 5 + 1 in
  let m := if mp <? 10 then mp + 3 else mp - 9 in
  let y := yoe + era * 400 + (if m <=? 2 then 1 else 0) in
  (y, m, d).

(** [dt.strftime('%Y-%m-%d %H:%M')], for years 1000 to 9999 *)
Definition strftime_ymd_hm (dt : datetime) : string :=
  let secs := dt / microseconds_per_second in
  let days := secs / 86400 in
  let sod := secs mod 86400 in
  let '(y, m, d) := civil_from_days days in
  (decimal 4 y ++ "-" ++ decimal 2 m ++ "-" ++ decimal 2 d ++ " "
     ++ decimal 2 (sod / 3600) ++ ":" ++ decimal 2 ((sod mod 3600) / 60))%string.

(** Exceptions the services raise or let through. *)
Inductive exn : Type :=
| Exception (msg : string)
| ValueError (msg : string)
| AttributeError (msg : string)
| UniqueViolationError (msg : string)
| TypeError (msg : string).

Definition result (A : Type) : Type := (exn + A)%type.

(** Whether a [datetime] object carries a [tzinfo]. *)
Inductive awareness : Type :=
| naive
| aware.

(** [a > b] on two datetimes: an order on values of the same kind, a
    [TypeError] between a naive and an aware one. *)
Definition gt (ka : awareness) (a : datetime) (kb : awareness)
  (b : datetime) : result bool :=
  match ka, kb with
  | naive, naive | aware, aware => inr (a >? b)
  | _, _ =>
      inl (TypeError "can't compare offset-naive and offset-aware datetimes")
  end.

End Py.

(** ** Rows of the relational store *)

Module User.
Record t : Type := mk
  { id : string;
    email : string;
    password : string;
    role : string }.
End User.

Module Profile.
Record t : Type := mk
  { userId : string;
    firstName : string;
    lastName : string }.
End Profile.

Module Appointment.
Record t : Type := mk
  { id : string;
    scheduleId : string;
    title : string;
    startTime : Py.datetime;
    endTime : Py.datetime;
    description : option string }.
End Appointment.

Module Schedule.
Record t : Type := mk
  { id : string;
    userId : string;
    startTime : Py.datetime;
    endTime : Py.datetime;
    title : string;
    description : option string;
    available : bool }.

(** A row fetched with [include={"Appointment": True}]: the row's own columns
    are reached through [row], the linked appointments through
    [Appointment]. *)
Record loaded : Type := mk_loaded
  { row : t;
    Appointment : list Appointment.t }.
End Schedule.

Module AuthToken.
Record t : Type := mk
  { id : string;
    token : string;
    expiryDate : Py.datetime;
    userId : string }.
End AuthToken.

(** The store: one list of rows per table. *)
Record Store : Type := mkStore
  { users : list User.t;
    profiles : list Profile.t;
    schedules : list Schedule.t;
    appointments : list Appointment.t;
    auth_tokens : list AuthToken.t }.

(** ** The ORM queries the services issue *)

Module Prisma.

(** The client's serializer for a [datetime] it sends: the microsecond part
    is cut to whole milliseconds. *)
Definition serialize_datetime (dt : Py.datetime) : Py.datetime :=
  1000 * (dt / 1000).

(** [find_first(where=...)]: the first row the filter accepts. *)
Definition find_first {A : Type} (where_ : A -> bool) (rows : list A)
  : option A :=
  List.find where_ rows.

(** The row with the least key; among equal keys the one scanned first. *)
Fixpoint least_by {A : Type} (key : A -> Z) (rows : list A) : option A :=
  match rows with
  | [] => None
  | r :: rest =>
      match least_by key rest with
      | Some m => if key m <? key r then Some m else Some r
      | None => Some r
      end
  end.

(** [find_first(where=..., order={key: "asc"})] *)
Definition find_first_asc {A : Type} (where_ : A -> bool) (key : A -> Z)
  (rows : list A) : option A :=
  least_by key (List.filter where_ rows).

(** [find_unique(where=...)] on a unique column. *)
Definition find_unique {A : Type} (where_ : A -> bool) (rows : list A)
  : option A :=
  List.find where_ rows.

(** [update(where=..., data=...)] on a unique column: the matching row is
    rewritten in place, the others are kept. *)
Fixpoint update {A : Type} (where_ : A -> bool) (data : A -> A)
  (rows : list A) : list A :=
  match rows with
  | [] => []
  | r :: rest =>
      if where_ r then data r :: rest else r :: update where_ data rest
  end.

(** The relation [Schedule.Appointment] resolved for one row. *)
Definition include_Appointment (db : Store) (s : Schedule.t)
  : Schedule.loaded :=
  Schedule.mk_loaded s
    (List.filter
       (fun a => (Appointment.scheduleId a =? Schedule.id s)%string)
       (appointments db)).

End Prisma.

(** ** [project/get_availability_service.py] *)

Record GetAvailabilityResponse : Type := mkGetAvailabilityResponse
  { userId : string;
    isAvailable : bool;
    message : option string;
    timeUntilNextAvailability : option Z }.

(** [where={"userId": userId, "startTime": {"lte": now},
            "endTime": {"gte": now}}] *)
Definition where_current (userId : string) (now : Py.datetime)
  (s : Schedule.t) : bool :=
  let sent := Prisma.serialize_datetime now in
  (Schedule.userId s =? userId)%string
  && (Schedule.startTime s <=? sent)
  && (Schedule.endTime s >=? sent).

(** [where={"userId": userId, "startTime": {"gt": now}, "available": True}];
    a stored [startTime] has whole milliseconds, and for such a value being
    after [now] and being after [now] cut to milliseconds are the same
    ([after_cut_iff] below). *)
Definition where_next (userId : string) (now : Py.datetime)
  (s : Schedule.t) : bool :=
  (Schedule.userId s =? userId)%string
  && (Schedule.startTime s >? now)
  && Bool.eqb (Schedule.available s) true.

Definition current_schedule (db : Store) (now : Py.datetime)
  (userId : string) : option Schedule.loaded :=
  option_map (Prisma.include_Appointment db)
    (Prisma.find_first (where_current userId now) (schedules db)).

Definition next_available_schedule (db : Store) (now : Py.datetime)
  (userId : string) : option Schedule.t :=
  Prisma.find_first_asc (where_next userId now) Schedule.startTime
    (schedules db).

(** [get_availability(userId)], with [now] the reading of
    [datetime.now(timezone.utc)] at its first line. *)
Definition get_availability (db : Store) (now : Py.datetime)
  (userId : string) : GetAvailabilityResponse :=
  match current_schedule db now userId with
  | Some current =>
      if Schedule.available (Schedule.row current)
         && negb (Py.truthy_list (Schedule.Appointment current))
      then mkGetAvailabilityResponse userId true (Some "Available") None
      else
        match next_available_schedule db now userId with
        | Some next =>
            let time_until_next :=
              Py.total_seconds (Py.sub (Schedule.startTime next) now) in
            mkGetAvailabilityResponse userId false
              (Some ("Unavailable until "
                       ++ Py.strftime_ymd_hm (Schedule.startTime next))%string)
              (Some (Py.int (Py.truediv time_until_next (60 # 1))))
        | None =>
            mkGetAvailabilityResponse userId false
              (Some "No more available schedules today") None
        end
  | None =>
      mkGetAvailabilityResponse userId false
        (Some "No current schedules found") None
  end.

(** The appointments linked to a schedule row in the store. *)
Definition linked_appointments (db : Store) (s : Schedule.t)
  : list Appointment.t :=
  Schedule.Appointment (Prisma.include_Appointment db s).

(** [s] is a schedule of [userId] whose interval contains [now]. *)
Definition is_current_of (userId : string) (now : Py.datetime)
  (s : Schedule.t) : Prop :=
  Schedule.userId s = userId /\
  Schedule.startTime s <= now /\ now <= Schedule.endTime s.

(** [s] is a schedule of [userId] that starts after [now] and is marked
    available. *)
Definition is_upcoming_of (userId : string) (now : Py.datetime)
  (s : Schedule.t) : Prop :=
  Schedule.userId s = userId /\
  now < Schedule.startTime s /\ Schedule.available s = true.

(** ** Library calls: [jose.jwt.encode] and [bcrypt.checkpw]

    Both are interfaces of packages outside the repository; the services
    are embedded over any implementation of them. *)

Record Claims : Type := mkClaims
  { sub : string;
    exp : Py.datetime }.

Class Jose : Type :=
  { jwt_encode : Claims -> string -> string -> string }.

Class Bcrypt : Type :=
  { checkpw : string -> string -> Py.result bool }.

(** ** [project/refresh_token_service.py] *)

Record RefreshTokenResponse : Type := mkRefreshTokenResponse
  { access_token : string;
    refresh_token_value : string;
    token_type : string;
    expires_in : Z }.

Definition invalid_refresh_token : Py.exn :=
  Py.ValueError "Refresh token is invalid or has expired.".

Definition none_has_no_attribute (attr : string) : Py.exn :=
  Py.AttributeError
    ("'NoneType' object has no attribute '" ++ attr ++ "'")%string.

(** The relation [AuthToken.User] resolved for one row. *)
Definition include_User (db : Store) (a : AuthToken.t) : option User.t :=
  Prisma.find_unique (fun u => (User.id u =? AuthToken.userId a)%string)
    (users db).

(** [AuthToken.prisma().update(where={"id": id},
      data={"token": token, "expiryDate": expiryDate})]; [token] is a unique
    column (it is the key of [find_unique] above), so the store refuses a
    value another row holds. *)
Definition AuthToken_update (rows : list AuthToken.t) (id token : string)
  (expiryDate : Py.datetime) : Py.result (list AuthToken.t) :=
  if List.existsb
       (fun a => (AuthToken.token a =? token)%string
                 && negb (AuthToken.id a =? id)%string) rows
  then inl (Py.UniqueViolationError
              "Unique constraint failed on the fields: (`token`)")
  else inr (Prisma.update
              (fun a => (AuthToken.id a =? id)%string)
              (fun a => AuthToken.mk (AuthToken.id a) token expiryDate
                          (AuthToken.userId a))
              rows).

(** [refresh_token(refresh_token)]; [utcnow1], [utcnow2], [utcnow3] are the
    readings of the three calls of [datetime.utcnow()], in program order.
    The first reading is naive and [auth_token.expiryDate] is an aware
    column value. *)
Definition refresh_token `{Jose} (db : Store)
  (utcnow1 utcnow2 utcnow3 : Py.datetime) (refresh_token : string)
  : Store * Py.result RefreshTokenResponse :=
  let SECRET_KEY := "your_super_secret_key" in
  let ALGORITHM := "HS256" in
  let ACCESS_TOKEN_EXPIRE_MINUTES := 15 in
  match Prisma.find_unique
          (fun a => (AuthToken.token a =? refresh_token)%string)
          (auth_tokens db) with
  | None => (db, inl invalid_refresh_token)
  | Some auth_token =>
      match Py.gt Py.naive utcnow1 Py.aware
              (AuthToken.expiryDate auth_token) with
      | inl e => (db, inl e)
      | inr true => (db, inl invalid_refresh_token)
      | inr false =>
        match include_User db auth_token with
        | None => (db, inl (none_has_no_attribute "id"))
        | Some user =>
            let access_token_expires :=
              utcnow2 + Py.timedelta_minutes ACCESS_TOKEN_EXPIRE_MINUTES in
            let access_token :=
              jwt_encode (mkClaims (User.id user) access_token_expires)
                SECRET_KEY ALGORITHM in
            let refresh_token_expires := utcnow3 + Py.timedelta_days 30 in
            let new_refresh_token :=
              jwt_encode (mkClaims (User.id user) refresh_token_expires)
                SECRET_KEY ALGORITHM in
            match AuthToken_update (auth_tokens db) (AuthToken.id auth_token)
                    new_refresh_token
                    (Prisma.serialize_datetime refresh_token_expires) with
            | inl e => (db, inl e)
            | inr rows =>
                (mkStore (users db) (profiles db) (schedules db)
                   (appointments db) rows,
                 inr (mkRefreshTokenResponse access_token new_refresh_token
                        "bearer" (ACCESS_TOKEN_EXPIRE_MINUTES * 60)))
            end
        end
      end
  end.

(** ** [project/update_user_service.py] *)

Record UpdateUserProfileResponse : Type := mkUpdateUserProfileResponse
  { resp_id : string;
    resp_email : option string;
    resp_firstName : option string;
    resp_lastName : option string;
    resp_role : option string;
    updateStatus : string }.

(** The dictionaries [update_payload] and [profile_payload]: a key is
    present exactly when its field is [Some]. *)
Record UserPayload : Type := mkUserPayload
  { payload_email : option string;
    payload_role : option string }.

Record ProfilePayload : Type := mkProfilePayload
  { payload_firstName : option string;
    payload_lastName : option string }.

(** Truth value of [update_payload]: a dictionary with no key is falsy. *)
Definition truthy_payload (p : UserPayload) : bool :=
  match payload_email p, payload_role p with
  | None, None => false
  | _, _ => true
  end.

Definition set_default {A : Type} (o : option A) (old : A) : A :=
  match o with
  | Some v => v
  | None => old
  end.

Definition apply_profile_payload (data : ProfilePayload) (p : Profile.t)
  : Profile.t :=
  Profile.mk (Profile.userId p)
    (set_default (payload_firstName data) (Profile.firstName p))
    (set_default (payload_lastName data) (Profile.lastName p)).

Definition apply_user_payload (data : UserPayload) (u : User.t) : User.t :=
  User.mk (User.id u)
    (set_default (payload_email data) (User.email u))
    (User.password u)
    (set_default (payload_role data) (User.role u)).

(** [Profile.prisma().update(where={"userId": id}, data=profile_payload)] *)
Definition Profile_update (rows : list Profile.t) (id : string)
  (data : ProfilePayload) : list Profile.t :=
  Prisma.update (fun p => (Profile.userId p =? id)%string)
    (apply_profile_payload data) rows.

(** [User.prisma().update(where={"id": id}, data=update_payload)]: the
    updated row, or [None] when no row has this id; [email] is a unique
    column (the key of [find_unique] in [login_user]). *)
Definition User_update (rows : list User.t) (id : string)
  (data : UserPayload) : Py.result (list User.t * option User.t) :=
  match Prisma.find_unique (fun u => (User.id u =? id)%string) rows with
  | None => inr (rows, None)
  | Some u =>
      let clash :=
        match payload_email data with
        | Some e =>
            List.existsb
              (fun v => (User.email v =? e)%string
                        && negb (User.id v =? id)%string) rows
        | None => false
        end in
      if clash
      then inl (Py.UniqueViolationError
                  "Unique constraint failed on the fields: (`email`)")
      else inr (Prisma.update (fun v => (User.id v =? id)%string)
                  (apply_user_payload data) rows,
                Some (apply_user_payload data u))
  end.

(** [update_user(id, email, firstName, lastName, role)] *)
Definition update_user (db : Store) (id : string)
  (email firstName lastName role : option string)
  : Store * Py.result UpdateUserProfileResponse :=
  let update_payload := mkUserPayload email role in
  let db1 :=
    if Py.truthy_str firstName || Py.truthy_str lastName
    then
      match Prisma.find_unique (fun p => (Profile.userId p =? id)%string)
              (profiles db) with
      | Some profile =>
          let profile_payload := mkProfilePayload firstName lastName in
          mkStore (users db) (Profile_update (profiles db) id profile_payload)
            (schedules db) (appointments db) (auth_tokens db)
      | None => db
      end
    else db in
  let fetched : Py.result (Store * option User.t) :=
    if truthy_payload update_payload
    then
      match User_update (users db1) id update_payload with
      | inl e => inl e
      | inr (rows, user) =>
          inr (mkStore rows (profiles db1) (schedules db1)
                 (appointments db1) (auth_tokens db1), user)
      end
    else
      inr (db1,
           Prisma.find_unique (fun u => (User.id u =? id)%string)
             (users db1)) in
  match fetched with
  | inl e => (db1, inl e)
  | inr (db2, None) => (db2, inl (none_has_no_attribute "id"))
  | inr (db2, Some user) =>
      (db2,
       inr (mkUpdateUserProfileResponse (User.id user)
              (Some (User.email user)) firstName lastName
              (Some (User.role user))
              "User profile successfully updated."))
  end.

(** ** [project/login_user_service.py] *)

Record UserLoginResponse : Type := mkUserLoginResponse
  { token : string;
    login_expires_in : Z }.

Module Login.

Definition SECRET_KEY : string := "your_secret_key_here".
Definition ALGORITHM : string := "HS256".
Definition ACCESS_TOKEN_EXPIRE_MINUTES : Z := 30.

(** [create_access_token(data, expires_delta)]; [data] is the dictionary
    [{"sub": sub}] and a zero [timedelta] is falsy like [None]. *)
Definition create_access_token `{Jose} (utcnow : Py.datetime) (sub : string)
  (expires_delta : option Py.timedelta) : string :=
  let expire :=
    match expires_delta with
    | Some d => if d =? 0 then utcnow + Py.timedelta_minutes 15
                else utcnow + d
    | None => utcnow + Py.timedelta_minutes 15
    end in
  jwt_encode (mkClaims sub expire) SECRET_KEY ALGORITHM.

Definition invalid_login_credentials : Py.exn :=
  Py.Exception "Invalid login credentials.".

(** [login_user(email, password)] *)
Definition login_user `{Bcrypt} `{Jose} (db : Store) (utcnow : Py.datetime)
  (email password : string) : Py.result UserLoginResponse :=
  match Prisma.find_unique (fun u => (User.email u =? email)%string)
          (users db) with
  | Some user =>
      let hashed_password := User.password user in
      match checkpw password hashed_password with
      | inl e => inl e
      | inr true =>
          let access_token_expires :=
            Py.timedelta_minutes ACCESS_TOKEN_EXPIRE_MINUTES in
          let access_token :=
            create_access_token utcnow (User.email user)
              (Some access_token_expires) in
          inr (mkUserLoginResponse access_token
                 (ACCESS_TOKEN_EXPIRE_MINUTES * 60))
      | inr false => inl invalid_login_credentials
      end
  | None => inl invalid_login_credentials
  end.

End Login.

(** The minutes [get_availability] reports for a schedule that starts at
    [start]: [int((start - now).total_seconds() / 60)]. *)
Definition minutes_until (now start : Py.datetime) : Z :=
  Py.int (Py.truediv (Py.total_seconds (Py.sub start now)) (60 # 1)).

(** [2^-53], the largest relative error of one rounding to binary64. *)
Definition half_ulp : Q := 1 # 9007199254740992.

(** One hundred years of 365.25 days. *)
Definition century : Py.timedelta := Py.timedelta_days 36525.

(** What the forward search of [get_availability] reports: the earliest
    upcoming available schedule of the user, with the minutes until its
    start (the whole minutes of the distance when it starts within a
    century), or that there is none. *)
Definition reports_forward_search (db : Store) (now : Py.datetime)
  (user : string) (r : GetAvailabilityResponse) : Prop :=
  match next_available_schedule db now user with
  | Some next =>
      In next (schedules db)
      /\ is_upcoming_of user now next
      /\ (forall s, In s (schedules db) -> is_upcoming_of user now s ->
                    Schedule.startTime next <= Schedule.startTime s)
      /\ message r
         = Some ("Unavailable until "
                   ++ Py.strftime_ymd_hm (Schedule.startTime next))%string
      /\ timeUntilNextAvailability r
         = Some (minutes_until now (Schedule.startTime next))
      /\ (Schedule.startTime next - now <= century ->
          minutes_until now (Schedule.startTime next)
          = (Schedule.startTime next - now) / 60000000)
  | None =>
      (forall s, In s (schedules db) -> ~ is_upcoming_of user now s)
      /\ message r = Some "No more available schedules today"
      /\ timeUntilNextAvailability r = None
  end.

(** The stored refresh-token record that carries the value [tok]. *)
Definition stored_token (db : Store) (tok : string) : option AuthToken.t :=
  Prisma.find_unique (fun a => (AuthToken.token a =? tok)%string)
    (auth_tokens db).

(** The token table honours its two unique columns. *)
Definition tokens_unique (db : Store) : Prop :=
  NoDup (List.map AuthToken.id (auth_tokens db))
  /\ NoDup (List.map AuthToken.token (auth_tokens db)).

(** ** Sample stores *)

Module Sample.

(** The instant [hh:mm] UTC on 2024-01-01. *)
Definition at_ (hh mm : Z) : Py.datetime :=
  (1704067200 + hh * 3600 + mm * 60) * Py.microseconds_per_second.

Definition no_rows : Store := mkStore [] [] [] [] [].

Definition with_schedules (ss : list Schedule.t) (aa : list Appointment.t)
  : Store :=
  mkStore [] [] ss aa [].

Definition morning : Schedule.t :=
  Schedule.mk "s1" "u1" (at_ 10 0) (at_ 11 0) "Clinic" None true.

Definition morning_off : Schedule.t :=
  Schedule.mk "s2" "u1" (at_ 10 0) (at_ 11 0) "Break" None false.

Definition morning_booked : Schedule.t :=
  Schedule.mk "s3" "u1" (at_ 10 0) (at_ 11 0) "Consultation" None true.

Definition late_morning : Schedule.t :=
  Schedule.mk "s4" "u1" (at_ 11 30) (at_ 12 30) "Clinic" None true.

Definition noon : Schedule.t :=
  Schedule.mk "s5" "u1" (at_ 12 0) (at_ 13 0) "Clinic" None true.

Definition visit : Appointment.t :=
  Appointment.mk "a1" "s3" "Visit" (at_ 10 15) (at_ 10 45) None.

(** One free schedule. *)
Definition free : Store := with_schedules [morning] [].

(** A booked schedule, then two later ones stored latest first. *)
Definition booked : Store :=
  with_schedules [morning_booked; noon; late_morning] [visit].

(** A booked schedule and nothing after it. *)
Definition booked_last : Store := with_schedules [morning_booked] [visit].

(** Two schedules over the same hour, the unavailable one stored first. *)
Definition overlap_off_first : Store :=
  with_schedules [morning_off; morning] [].

(** Two schedules over the same hour, the free one stored first and the
    booked one second. *)
Definition overlap_free_first : Store :=
  with_schedules [morning; morning_booked] [visit].

(** Nothing now, one available schedule later. *)
Definition later_only : Store := with_schedules [late_morning] [].

End Sample.

(** ** Executable stand-ins for the two libraries

    They are used to run the services on sample stores.  [jwt_encode] is a
    function of the claims, the key and the algorithm only, with the [exp]
    claim written in whole seconds as [jose] does for a [datetime];
    [checkpw] compares against a tagged copy of the password. *)

Module Model.

Definition jwt_encode (c : Claims) (key alg : string) : string :=
  (alg ++ "." ++ sub c ++ "."
     ++ Py.decimal 1 (exp c / Py.microseconds_per_second) ++ "." ++ key)%string.

Definition hashpw (password : string) : string :=
  ("$2b$" ++ password)%string.

Definition checkpw (password hashed : string) : Py.result bool :=
  inr (hashed =? hashpw password)%string.

Definition jose : Jose := Build_Jose jwt_encode.

Definition bcrypt : Bcrypt := Build_Bcrypt checkpw.

End Model.

(** ** Sample stores for the account services *)

Module Accounts.

Definition ada : User.t :=
  User.mk "u1" "ada@example.org" (Model.hashpw "correct horse") "Professional".

Definition ada_profile : Profile.t := Profile.mk "u1" "Ada" "Lovelace".

Definition with_token (tok : string) (expiry : Py.datetime) : Store :=
  mkStore [ada] [ada_profile] [] [] [AuthToken.mk "t1" tok expiry "u1"].

(** A session whose refresh token was handed out earlier. *)
Definition session : Store :=
  with_token "seed-refresh-token" (Sample.at_ 12 0).

End Accounts.

(** ** Further ORM queries and the services that use them *)

(** [str(e)] for the exceptions above: the message they were built with. *)
Definition str_of_exn (e : Py.exn) : string :=
  match e with
  | Py.Exception msg => msg
  | Py.ValueError msg => msg
  | Py.AttributeError msg => msg
  | Py.UniqueViolationError msg => msg
  | Py.TypeError msg => msg
  end.

Module PrismaMany.

(** [delete_many(where=...)]: every row the filter accepts is removed. *)
Definition delete_many {A : Type} (where_ : A -> bool) (rows : list A)
  : list A :=
  List.filter (fun r => negb (where_ r)) rows.

(** [update_many(where=..., data=...)]: every row the filter accepts is
    rewritten, the others are kept. *)
Definition update_many {A : Type} (where_ : A -> bool) (data : A -> A)
  (rows : list A) : list A :=
  List.map (fun r => if where_ r then data r else r) rows.

End PrismaMany.

(** *** [project/logout_user_service.py] *)

Record LogoutUserResponse : Type := mkLogoutUserResponse
  { logout_message : string }.

(** [logout_user(token)] *)
Definition logout_user (db : Store) (token : string)
  : Store * LogoutUserResponse :=
  (mkStore (users db) (profiles db) (schedules db) (appointments db)
     (PrismaMany.delete_many
        (fun a => (AuthToken.token a =? token)%string) (auth_tokens db)),
   mkLogoutUserResponse "User successfully logged out.").

(** *** [project/update_availability_service.py] *)

Record UpdateAvailabilityResponse : Type := mkUpdateAvailabilityResponse
  { success : bool;
    updated_availability : bool;
    availability_message : option string }.

Definition set_available (available : bool) (s : Schedule.t) : Schedule.t :=
  Schedule.mk (Schedule.id s) (Schedule.userId s) (Schedule.startTime s)
    (Schedule.endTime s) (Schedule.title s) (Schedule.description s)
    available.

(** [where={"userId": professional_id, "endTime": {"gt": now}}] *)
Definition where_not_ended (professional_id : string) (now : Py.datetime)
  (s : Schedule.t) : bool :=
  (Schedule.userId s =? professional_id)%string
  && (Schedule.endTime s >? Prisma.serialize_datetime now).

(** [Schedule.prisma().update_many(where=..., data={"available": ...})];
    the query itself raises nothing on this store. *)
Definition Schedule_update_many_available (rows : list Schedule.t)
  (professional_id : string) (now : Py.datetime) (new_availability : bool)
  : Py.result (list Schedule.t) :=
  inr (PrismaMany.update_many (where_not_ended professional_id now)
         (set_available new_availability) rows).

(** [update_availability(professional_id, new_availability)], with [now] the
    reading of [datetime.now()]: the wall-clock time of the host without a
    [tzinfo], which the client sends as if it were UTC. *)
Definition update_availability (db : Store) (now : Py.datetime)
  (professional_id : string) (new_availability : bool)
  : Store * UpdateAvailabilityResponse :=
  match Schedule_update_many_available (schedules db) professional_id now
          new_availability with
  | inr rows =>
      (mkStore (users db) (profiles db) rows (appointments db)
         (auth_tokens db),
       mkUpdateAvailabilityResponse true new_availability
         (Some "Professional's availability status updated successfully."))
  | inl e =>
      (db,
       mkUpdateAvailabilityResponse false new_availability
         (Some ("Failed to update availability status due to an error: "
                  ++ str_of_exn e)%string))
  end.

(** *** [project/update_schedule_service.py] *)

Record UpdateScheduleResponse : Type := mkUpdateScheduleResponse
  { schedule_updated : bool;
    schedule_message : string }.

(** [Schedule.prisma().update(where={"id": id}, data={...})] with the five
    columns the service writes, the two instants as the client sends them;
    the query itself raises nothing on this store. *)
Definition Schedule_update (rows : list Schedule.t) (id : string)
  (startTime endTime : Py.datetime) (title description : string)
  (available : bool) : Py.result (list Schedule.t) :=
  inr (Prisma.update (fun s => (Schedule.id s =? id)%string)
         (fun s => Schedule.mk (Schedule.id s) (Schedule.userId s)
                     (Prisma.serialize_datetime startTime)
                     (Prisma.serialize_datetime endTime)
                     title (Some description) available)
         rows).

(** [update_schedule(id, startTime, endTime, title, description,
    available)] *)
Definition update_schedule (db : Store) (id : string)
  (startTime endTime : Py.datetime) (title description : string)
  (available : bool) : Store * UpdateScheduleResponse :=
  match Prisma.find_unique (fun s => (Schedule.id s =? id)%string)
          (schedules db) with
  | None => (db, mkUpdateScheduleResponse false "Schedule not found.")
  | Some schedule =>
      match Schedule_update (schedules db) id startTime endTime title
              description available with
      | inr rows =>
          (mkStore (users db) (profiles db) rows (appointments db)
             (auth_tokens db),
           mkUpdateScheduleResponse true "Schedule updated successfully.")
      | inl e =>
          (db,
           mkUpdateScheduleResponse false
             ("An error occurred while updating the schedule: "
                ++ str_of_exn e)%string)
      end
  end.

(** *** [project/get_schedule_service.py] *)

Record UserBrief : Type := mkUserBrief
  { brief_userId : string;
    brief_email : string;
    brief_role : string }.

Record AppointmentBrief : Type := mkAppointmentBrief
  { appointmentId : string;
    brief_title : string;
    brief_startTime : Py.datetime;
    brief_endTime : Py.datetime;
    brief_description : option string }.

Record GetScheduleResponse : Type := mkGetScheduleResponse
  { schedule_id : string;
    resp_startTime : Py.datetime;
    resp_endTime : Py.datetime;
    resp_title : string;
    resp_description : option string;
    resp_available : bool;
    resp_user : UserBrief;
    resp_appointments : list AppointmentBrief }.

(** The relation [Schedule.User] resolved for one row. *)
Definition include_schedule_User (db : Store) (s : Schedule.t)
  : option User.t :=
  Prisma.find_unique (fun u => (User.id u =? Schedule.userId s)%string)
    (users db).

(** [get_schedule(id)]; a role is stored by its name, which is what
    [role.name] yields. *)
Definition get_schedule (db : Store) (id : string)
  : Py.result GetScheduleResponse :=
  match Prisma.find_unique (fun s => (Schedule.id s =? id)%string)
          (schedules db) with
  | None =>
      inl (Py.ValueError ("Schedule with ID " ++ id ++ " not found")%string)
  | Some row =>
      let schedule := Prisma.include_Appointment db row in
      match include_schedule_User db row with
      | None => inl (none_has_no_attribute "id")
      | Some user =>
          let user_brief :=
            mkUserBrief (User.id user) (User.email user) (User.role user) in
          let appointments_brief :=
            List.map
              (fun appointment =>
                 mkAppointmentBrief (Appointment.id appointment)
                   (Appointment.title appointment)
                   (Appointment.startTime appointment)
                   (Appointment.endTime appointment)
                   (Appointment.description appointment))
              (Schedule.Appointment schedule) in
          inr (mkGetScheduleResponse (Schedule.id row)
                 (Schedule.startTime row) (Schedule.endTime row)
                 (Schedule.title row) (Schedule.description row)
                 (Schedule.available row) user_brief appointments_brief)
      end
  end.

(** ** Predicates used by the further properties *)

(** The store with the schedules of [user] only. *)
Definition only_schedules_of (user : string) (db : Store) : Store :=
  mkStore (users db) (profiles db)
    (List.filter (fun s => (Schedule.userId s =? user)%string)
       (schedules db))
    (appointments db) (auth_tokens db).

(** Every table but the token table is the same in both stores. *)
Definition same_but_tokens (db db' : Store) : Prop :=
  users db' = users db /\ profiles db' = profiles db
  /\ schedules db' = schedules db /\ appointments db' = appointments db.

(** Sample store with a second user and a second session. *)
Module MoreAccounts.

Definition bob : User.t :=
  User.mk "u2" "bob@example.org" (Model.hashpw "staple") "Administrator".

Definition bob_profile : Profile.t := Profile.mk "u2" "Bob" "Babbage".

Definition two_sessions : Store :=
  mkStore [Accounts.ada; bob] [Accounts.ada_profile; bob_profile] [] []
    [AuthToken.mk "t1" "seed-refresh-token" (Sample.at_ 12 0) "u1";
     AuthToken.mk "t2" "other-refresh-token" (Sample.at_ 12 0) "u2"].

(** [ada] without a profile row. *)
Definition no_profile : Store :=
  mkStore [Accounts.ada] [] [] [] [].

Definition bob_clinic : Schedule.t :=
  Schedule.mk "s9" "u2" (Sample.at_ 10 0) (Sample.at_ 11 0) "Office" None
    false.

(** The schedules of [Sample.booked] together with one of another user. *)
Definition shared : Store :=
  mkStore [Accounts.ada; bob] [] (bob_clinic :: schedules Sample.booked)
    (appointments Sample.booked) [].

(** Two schedules back to back: the first ends at 11:00, where the second
    starts. *)
Definition eleven : Schedule.t :=
  Schedule.mk "s6" "u1" (Sample.at_ 11 0) (Sample.at_ 12 0) "Clinic" None
    true.

Definition back_to_back : Store :=
  Sample.with_schedules [Sample.morning_off; eleven] [].

(** Half a millisecond after 11:00. *)
Definition just_after_eleven : Py.datetime := Sample.at_ 11 0 + 500.

(** An unavailable hour, then an available one in the year 3000
    (2024-01-01 plus 356477 days); and an instant one microsecond after
    10:30. *)
Definition far_ahead : Schedule.t :=
  Schedule.mk "s7" "u1" (Sample.at_ 0 0 + Py.timedelta_days 356477)
    (Sample.at_ 1 0 + Py.timedelta_days 356477) "Reunion" None true.

Definition long_wait : Store :=
  Sample.with_schedules [Sample.morning_off; far_ahead] [].

Definition just_after_half_past_ten : Py.datetime := Sample.at_ 10 30 + 1.

End MoreAccounts.

(** * Properties *)

(** ** Python value helpers *)

Example strftime_epoch :
  Py.strftime_ymd_hm 0 = "1970-01-01 00:00".
Proof. reflexivity. Qed.

(** 2024-02-29T11:30:00Z is 1709206200 seconds after the epoch. *)
Example strftime_leap_day :
  Py.strftime_ymd_hm (1709206200 * 1000000) = "2024-02-29 11:30".
Proof. vm_compute. reflexivity. Qed.

Lemma truthy_list_false {A : Type} (l : list A) :
  Py.truthy_list l = false <-> l = [].
Proof. destruct l; simpl; split; congruence. Qed.

(** ** Binary64 rounding *)

Lemma round_half_even_near (a b : Z) :
  0 <= a -> 0 < b ->
  2 * (Py.round_half_even a b * b - a) <= b
  /\ 2 * (a - Py.round_half_even a b * b) <= b
  /\ 0 <= Py.round_half_even a b.
Proof.
  intros Ha Hb. unfold Py.round_half_even.
  pose proof (Z.div_mod a b ltac:(lia)) as Hdm.
  pose proof (Z.mod_pos_bound a b Hb) as Hr.
  pose proof (Z.div_pos a b Ha Hb) as Hq.
  set (q := a / b) in *. set (r := a mod b) in *.
  destruct (2 * r <? b) eqn:E1; [apply Z.ltb_lt in E1; nia|].
  apply Z.ltb_ge in E1.
  destruct (b <? 2 * r) eqn:E2; [apply Z.ltb_lt in E2; nia|].
  apply Z.ltb_ge in E2.
  destruct (Z.even q); nia.
Qed.

Lemma round_half_even_exact (n b : Z) :
  0 < b -> Py.round_half_even (n * b) b = n.
Proof.
  intros Hb. unfold Py.round_half_even.
  rewrite Z.div_mul, Z.mod_mul by lia.
  assert (E : (2 * 0 <? b) = true) by (apply Z.ltb_lt; lia).
  now rewrite E.
Qed.

Lemma binade_scaled (a b : Z) :
  0 < a -> 0 < b -> Py.binade a b <= 52 ->
  2 ^ 52 * b <= a * 2 ^ (52 - Py.binade a b).
Proof.
  intros Ha Hb. unfold Py.binade.
  pose proof (Z.log2_spec a Ha) as [Hla Hla'].
  pose proof (Z.log2_spec b Hb) as [Hlb Hlb'].
  pose proof (Z.log2_nonneg a) as Hna.
  pose proof (Z.log2_nonneg b) as Hnb.
  set (la := Z.log2 a) in *. set (lb := Z.log2 b) in *.
  set (k := la - lb).
  destruct (if 0 <=? k then b * 2 ^ k <=? a else b <=? a * 2 ^ (- k)) eqn:R.
  - intros Hk.
    destruct (0 <=? k) eqn:K.
    + apply Z.leb_le in K, R.
      replace (2 ^ 52) with (2 ^ k * 2 ^ (52 - k))
        by (rewrite <- Z.pow_add_r by lia; f_equal; lia).
      assert (0 < 2 ^ (52 - k)) by (apply Z.pow_pos_nonneg; lia).
      nia.
    + apply Z.leb_gt in K. apply Z.leb_le in R.
      replace (2 ^ (52 - k)) with (2 ^ (- k) * 2 ^ 52)
        by (rewrite <- Z.pow_add_r by lia; f_equal; lia).
      nia.
  - intros Hk.
    assert (H1 : 2 ^ 52 * b < 2 ^ (53 + lb)).
    { replace (2 ^ (53 + lb)) with (2 ^ 52 * 2 ^ (Z.succ lb))
        by (rewrite <- Z.pow_add_r by lia; f_equal; lia).
      nia. }
    assert (H2 : 2 ^ (53 + lb) <= a * 2 ^ (52 - (k - 1))).
    { replace (2 ^ (53 + lb)) with (2 ^ la * 2 ^ (52 - (k - 1)))
        by (rewrite <- Z.pow_add_r by lia; f_equal; lia).
      assert (0 < 2 ^ (52 - (k - 1))) by (apply Z.pow_pos_nonneg; lia).
      nia. }
    lia.
Qed.

Lemma binade_below (a b : Z) :
  0 < a -> 0 < b -> a < b * 2 ^ 53 -> Py.binade a b <= 52.
Proof.
  intros Ha Hb Hlt. unfold Py.binade.
  pose proof (Z.log2_spec a Ha) as [Hla Hla'].
  pose proof (Z.log2_spec b Hb) as [Hlb Hlb'].
  pose proof (Z.log2_nonneg a) as Hna.
  pose proof (Z.log2_nonneg b) as Hnb.
  set (la := Z.log2 a) in *. set (lb := Z.log2 b) in *.
  set (k := la - lb).
  destruct (Z_le_gt_dec k 52) as [Hk|Hk].
  { destruct (if 0 <=? k then _ else _); lia. }
  assert (K : (0 <=? k) = true) by (apply Z.leb_le; lia).
  rewrite K.
  destruct (b * 2 ^ k <=? a) eqn:R.
  - apply Z.leb_le in R. exfalso.
    assert (2 ^ 53 <= 2 ^ k) by (apply Z.pow_le_mono_r; lia).
    nia.
  - destruct (Z_le_gt_dec k 53) as [Hk'|Hk']; [lia|]. exfalso.
    (* a >= 2^la = 2^(lb+k) > b * 2^(k-1) >= b*2^53 *)
    assert (H1 : b * 2 ^ (k - 1) < 2 ^ la).
    { replace (2 ^ la) with (2 ^ (Z.succ lb) * 2 ^ (k - 1))
        by (rewrite <- Z.pow_add_r by lia; f_equal; lia).
      assert (0 < 2 ^ (k - 1)) by (apply Z.pow_pos_nonneg; lia).
      nia. }
    assert (2 ^ 53 <= 2 ^ (k - 1)) by (apply Z.pow_le_mono_r; lia).
    nia.
Qed.

(* the value as n / 2^p *)
Lemma binary64_pos_shape (a b : Z) :
  0 < a -> 0 < b -> a < b * 2 ^ 53 ->
  exists p n,
    0 <= p /\ 2 ^ 52 * b <= a * 2 ^ p
    /\ n = Py.round_half_even (a * 2 ^ p) b
    /\ Py.binary64_pos a b = Qmake n (Z.to_pos (2 ^ p)).
Proof.
  intros Ha Hb Hlt.
  pose proof (binade_below a b Ha Hb Hlt) as HE.
  pose proof (binade_scaled a b Ha Hb HE) as Hs.
  unfold Py.binary64_pos.
  set (E := Py.binade a b) in *.
  destruct (0 <=? E - 52) eqn:Z0.
  - apply Z.leb_le in Z0. assert (E = 52) by lia.
    exists 0, (Py.round_half_even (a * 2 ^ 0) b).
    replace (E - 52) with 0 by lia.
    replace (52 - E) with 0 in Hs by lia.
    repeat split; trivial; try lia.
    simpl (2 ^ 0). rewrite !Z.mul_1_r. reflexivity.
  - apply Z.leb_gt in Z0.
    exists (52 - E), (Py.round_half_even (a * 2 ^ (52 - E)) b).
    replace (- (E - 52)) with (52 - E) by lia.
    repeat split; trivial; lia.
Qed.

Lemma binary64_pos_error (a b : Z) :
  0 < a -> 0 < b -> a < b * 2 ^ 53 ->
  ((a # Z.to_pos b) * (1 - half_ulp) <= Py.binary64_pos a b
   /\ Py.binary64_pos a b <= (a # Z.to_pos b) * (1 + half_ulp))%Q.
Proof.
  intros Ha Hb Hlt.
  destruct (binary64_pos_shape a b Ha Hb Hlt) as (p & n & Hp & Hs & Hn & ->).
  assert (HP : 0 < 2 ^ p) by (apply Z.pow_pos_nonneg; lia).
  destruct (round_half_even_near (a * 2 ^ p) b ltac:(nia) Hb)
    as (Hup & Hdn & _).
  rewrite <- Hn in Hup, Hdn.
  set (P := 2 ^ p) in *.
  unfold half_ulp, Qle, Qmult, Qminus, Qplus, Qopp. simpl.
  rewrite !Z2Pos.id by lia.
  rewrite ?Pos2Z.inj_mul, !Z2Pos.id by lia.
  split; nia.
Qed.

Lemma binary64_pos_integer (n b : Z) :
  0 < n -> n < 2 ^ 53 -> 0 < b ->
  (Py.binary64_pos (n * b) b == inject_Z n)%Q.
Proof.
  intros Hn Hlt Hb.
  destruct (binary64_pos_shape (n * b) b ltac:(nia) Hb ltac:(nia))
    as (p & m & Hp & _ & Hm & ->).
  assert (HP : 0 < 2 ^ p) by (apply Z.pow_pos_nonneg; lia).
  replace (n * b * 2 ^ p) with (n * 2 ^ p * b) in Hm by ring.
  rewrite round_half_even_exact in Hm by lia. subst m.
  unfold Qeq, inject_Z. simpl. rewrite Z2Pos.id by lia. ring.
Qed.

Lemma binary64_positive (x : Q) :
  (0 < x)%Q ->
  Py.binary64 x = Py.binary64_pos (Qnum x) (Z.pos (Qden x)).
Proof.
  destruct x as [[|a|a] b]; unfold Qlt; simpl; intros H; try lia.
  reflexivity.
Qed.

Lemma int_between (y : Q) (m : Z) :
  0 <= m -> (inject_Z m <= y)%Q -> (y < inject_Z (m + 1))%Q ->
  Py.int y = m.
Proof.
  intros Hm. destruct y as [a b]. unfold Qle, Qlt, Py.int. simpl.
  intros H1 H2.
  assert (Ha : 0 <= a) by nia.
  rewrite Z.quot_div_nonneg by lia.
  symmetry. apply (Z.div_unique a (Z.pos b) m (a - m * Z.pos b)); lia.
Qed.

Lemma sixtieth_of_integer (x : Q) (m : Z) :
  (x == inject_Z (60 * m))%Q ->
  Qnum (x / (60 # 1)) = m * Z.pos (Qden (x / (60 # 1))).
Proof.
  destruct x as [a b]. unfold Qeq, inject_Z.
  cbn [Qnum Qden Qdiv Qmult Qinv]. intros Hxe.
  change (Qnum (60 # 1)) with 60. cbn [Qnum Qden].
  rewrite Pos2Z.inj_mul. lia.
Qed.

Lemma float_minutes_floor (d : Py.timedelta) :
  0 < d -> d <= 36525 * 86400 * 1000000 ->
  Py.int (Py.binary64 (Py.binary64 (d # 1000000) / (60 # 1)))
  = d / 60000000.
Proof.
  intros Hd Hbound.
  set (m := d / 60000000).
  pose proof (Z.div_mod d 60000000 ltac:(lia)) as Hdm.
  pose proof (Z.mod_pos_bound d 60000000 ltac:(lia)) as Hr.
  fold m in Hdm. set (r := d mod 60000000) in *.
  assert (Hm : 0 <= m) by (apply Z.div_pos; lia).
  set (x := Py.binary64 (d # 1000000)).
  assert (Hx : x = Py.binary64_pos d 1000000).
  { unfold x. rewrite binary64_positive.
    - reflexivity.
    - unfold Qlt. simpl. lia. }
  destruct (binary64_pos_error d 1000000 Hd ltac:(lia) ltac:(lia))
    as [Hxlo Hxhi].
  rewrite <- Hx in Hxlo, Hxhi. simpl (Z.to_pos 1000000) in Hxlo, Hxhi.
  assert (Hdq : (inject_Z d * (1 # 1000000) == d # 1000000)%Q).
  { unfold Qeq, Qmult, inject_Z. simpl. ring. }
  rewrite <- Hdq in Hxlo, Hxhi.
  assert (Hdle : (inject_Z d <= 3155760000000000)%Q).
  { change 3155760000000000%Q with (inject_Z 3155760000000000).
    rewrite <- Zle_Qle. lia. }
  assert (Hd1 : (1 <= inject_Z d)%Q).
  { change 1%Q with (inject_Z 1). rewrite <- Zle_Qle. lia. }
  unfold half_ulp in Hxlo, Hxhi.
  assert (Hxpos : (0 < x)%Q) by lra.
  pose proof (sixtieth_of_integer x m) as Hsix.
  assert (Hz : (x / (60 # 1) == x * (1 # 60))%Q) by reflexivity.
  set (z := (x / (60 # 1))%Q) in *. clearbody z.
  assert (Hzpos : (0 < z)%Q) by lra.
  set (y := Py.binary64 z).
  assert (Hy : y = Py.binary64_pos (Qnum z) (Z.pos (Qden z)))
    by (unfold y; now rewrite binary64_positive).
  assert (Hza : 0 < Qnum z)
    by (destruct z as [a b]; unfold Qlt in Hzpos; simpl in *; lia).
  assert (Hzeta : (Qnum z # Z.to_pos (Z.pos (Qden z)) == z)%Q)
    by (destruct z; reflexivity).
  assert (Hzlt : Qnum z < Z.pos (Qden z) * 2 ^ 53).
  { assert (Hq : (z < 9007199254740992)%Q) by lra.
    clear - Hq. destruct z as [a b]. unfold Qlt in Hq.
    cbn [Qnum Qden] in *. change (2 ^ 53) with 9007199254740992. lia. }
  destruct (Z.eq_dec r 0) as [Hr0|Hr0].
  - (* exact multiples of a minute *)
    assert (Hxe : (x == inject_Z (60 * m))%Q).
    { rewrite Hx. replace d with (60 * m * 1000000) by lia.
      apply binary64_pos_integer;
        change (2 ^ 53) with 9007199254740992; lia. }
    pose proof (Hsix Hxe) as Hze.
    assert (Hm0 : 0 < m) by lia.
    assert (Hye : (y == inject_Z m)%Q).
    { rewrite Hy, Hze.
      apply binary64_pos_integer;
        change (2 ^ 53) with 9007199254740992; lia. }
    apply int_between; trivial.
    + rewrite Hye. apply Qle_refl.
    + rewrite Hye. rewrite <- Zlt_Qlt. lia.
  - destruct (binary64_pos_error (Qnum z) (Z.pos (Qden z)) Hza
                ltac:(lia) Hzlt) as [Hylo Hyhi].
    rewrite <- Hy, Hzeta in Hylo, Hyhi.
    unfold half_ulp in Hylo, Hyhi.
    assert (Hdm_q : (inject_Z d == 60000000 * inject_Z m + inject_Z r)%Q).
    { change 60000000%Q with (inject_Z 60000000).
      rewrite <- inject_Z_mult, <- inject_Z_plus. now rewrite <- Hdm. }
    assert (Hr1 : (1 <= inject_Z r)%Q).
    { change 1%Q with (inject_Z 1). rewrite <- Zle_Qle. lia. }
    assert (Hr2 : (inject_Z r <= 59999999)%Q).
    { change 59999999%Q with (inject_Z 59999999). rewrite <- Zle_Qle. lia. }
    apply int_between; trivial.
    + lra.
    + rewrite inject_Z_plus. change (inject_Z 1) with 1%Q. lra.
Qed.

Lemma binary64_pos_nonneg (a b : Z) :
  0 < a -> 0 < b -> 0 <= Qnum (Py.binary64_pos a b).
Proof.
  intros Ha Hb. unfold Py.binary64_pos.
  destruct (0 <=? Py.binade a b - 52) eqn:E.
  - apply Z.leb_le in E.
    assert (0 < 2 ^ (Py.binade a b - 52)) by (apply Z.pow_pos_nonneg; lia).
    destruct (round_half_even_near a (b * 2 ^ (Py.binade a b - 52)))
      as (_ & _ & Hn); [lia|nia|].
    simpl. nia.
  - apply Z.leb_gt in E.
    assert (0 < 2 ^ (- (Py.binade a b - 52)))
      by (apply Z.pow_pos_nonneg; lia).
    destruct (round_half_even_near (a * 2 ^ (- (Py.binade a b - 52))) b)
      as (_ & _ & Hn); [nia|lia|].
    exact Hn.
Qed.

Lemma binary64_nonneg (x : Q) :
  0 <= Qnum x -> 0 <= Qnum (Py.binary64 x).
Proof.
  destruct x as [[|a|a] b]; unfold Py.binary64; simpl; intros H;
    try lia.
  apply binary64_pos_nonneg; lia.
Qed.

(** The minutes the service computes are the whole minutes of the distance
    when the start is at most a century ahead, and are never negative. *)
Lemma minutes_until_floor (now start : Py.datetime) :
  now < start -> start - now <= century ->
  minutes_until now start = (start - now) / 60000000.
Proof.
  intros Hlt Hc. unfold minutes_until, Py.truediv, Py.total_seconds, Py.sub.
  apply float_minutes_floor; [lia|exact Hc].
Qed.

Lemma minutes_until_nonneg (now start : Py.datetime) :
  now < start -> 0 <= minutes_until now start.
Proof.
  intros Hlt. unfold minutes_until, Py.truediv, Py.total_seconds, Py.sub.
  set (x := Py.binary64 ((start - now) # 1000000)).
  assert (Hx : 0 <= Qnum x) by (apply binary64_nonneg; simpl; lia).
  assert (Hz : 0 <= Qnum (x / (60 # 1))).
  { destruct x as [a b]. simpl in *. lia. }
  pose proof (binary64_nonneg _ Hz) as Hy.
  unfold Py.int. apply Z.quot_pos; lia.
Qed.

(** A stored instant with whole milliseconds is after [now] exactly when it
    is after [now] cut to milliseconds. *)
Lemma after_cut_iff (now stored : Py.datetime) :
  Prisma.serialize_datetime stored = stored ->
  (Prisma.serialize_datetime now < stored <-> now < stored).
Proof.
  unfold Prisma.serialize_datetime. intros Hs.
  pose proof (Z.div_mod now 1000 ltac:(lia)) as Hn.
  pose proof (Z.mod_pos_bound now 1000 ltac:(lia)) as Hr.
  lia.
Qed.

Lemma serialize_datetime_le (now : Py.datetime) :
  Prisma.serialize_datetime now <= now
  /\ now < Prisma.serialize_datetime now + 1000.
Proof.
  unfold Prisma.serialize_datetime.
  pose proof (Z.div_mod now 1000 ltac:(lia)) as Hn.
  pose proof (Z.mod_pos_bound now 1000 ltac:(lia)) as Hr.
  lia.
Qed.

(** ** The ORM queries *)

Section Queries.

Context {A : Type}.
Variable where_ : A -> bool.
Variable key : A -> Z.

Lemma find_first_Some (rows : list A) (r : A) :
  Prisma.find_first where_ rows = Some r -> In r rows /\ where_ r = true.
Proof. apply List.find_some. Qed.

Lemma find_first_None (rows : list A) :
  Prisma.find_first where_ rows = None <->
  forall r, In r rows -> where_ r = false.
Proof.
  split.
  - intros Hn r Hr. exact (List.find_none where_ rows Hn r Hr).
  - induction rows as [|x rows IH]; intros Hall; simpl; [reflexivity|].
    rewrite (Hall x (or_introl eq_refl)).
    apply IH. intros r Hr. apply Hall. now right.
Qed.

Lemma find_first_exists (rows : list A) (r : A) :
  In r rows -> where_ r = true ->
  exists r', Prisma.find_first where_ rows = Some r'.
Proof.
  intros Hin Hw.
  destruct (Prisma.find_first where_ rows) as [r'|] eqn:E; [eauto|].
  rewrite find_first_None in E. rewrite (E r Hin) in Hw. discriminate.
Qed.

Lemma least_by_None (rows : list A) :
  Prisma.least_by key rows = None -> rows = [].
Proof.
  destruct rows as [|r rest]; simpl; [reflexivity|].
  destruct (Prisma.least_by key rest) as [m|]; [|discriminate].
  destruct (key m <? key r); discriminate.
Qed.

Lemma least_by_Some (rows : list A) (m : A) :
  Prisma.least_by key rows = Some m ->
  In m rows /\ forall r, In r rows -> key m <= key r.
Proof.
  revert m. induction rows as [|x rest IH]; simpl; intros m Hm.
  - discriminate.
  - destruct (Prisma.least_by key rest) as [m'|] eqn:E.
    + destruct (IH m' eq_refl) as [Hin Hle].
      destruct (key m' <? key x) eqn:Hlt; inversion Hm; subst; clear Hm.
      * apply Z.ltb_lt in Hlt. split; [now right|].
        intros r [<-|Hr]; [lia|now apply Hle].
      * apply Z.ltb_ge in Hlt. split; [now left|].
        intros r [<-|Hr]; [lia|]. specialize (Hle r Hr). lia.
    + inversion Hm; subst; clear Hm.
      apply least_by_None in E. subst rest.
      split; [now left|]. intros r [<-|[]]. lia.
Qed.

Lemma find_first_asc_Some (rows : list A) (m : A) :
  Prisma.find_first_asc where_ key rows = Some m ->
  In m rows /\ where_ m = true /\
  forall r, In r rows -> where_ r = true -> key m <= key r.
Proof.
  unfold Prisma.find_first_asc. intros Hm.
  apply least_by_Some in Hm. destruct Hm as [Hin Hle].
  apply List.filter_In in Hin. destruct Hin as [Hin Hw].
  repeat split; trivial.
  intros r Hr Hwr. apply Hle. apply List.filter_In. now split.
Qed.

Lemma find_first_asc_None (rows : list A) :
  Prisma.find_first_asc where_ key rows = None ->
  forall r, In r rows -> where_ r = false.
Proof.
  unfold Prisma.find_first_asc. intros Hn r Hr.
  apply least_by_None in Hn.
  destruct (where_ r) eqn:Hw; [|reflexivity].
  assert (Hf : In r (List.filter where_ rows))
    by (apply List.filter_In; now split).
  rewrite Hn in Hf. destruct Hf.
Qed.

Lemma find_first_asc_exists (rows : list A) (r : A) :
  In r rows -> where_ r = true ->
  exists m, Prisma.find_first_asc where_ key rows = Some m.
Proof.
  intros Hin Hw.
  destruct (Prisma.find_first_asc where_ key rows) as [m|] eqn:E; [eauto|].
  rewrite (find_first_asc_None rows E r Hin) in Hw. discriminate.
Qed.

End Queries.

(** ** [get_availability] *)

Section Availability.

Variable db : Store.
Variable now : Py.datetime.
Variable user : string.

Lemma where_current_spec (s : Schedule.t) :
  where_current user now s = true <->
  Schedule.userId s = user /\
  Schedule.startTime s <= Prisma.serialize_datetime now /\
  Prisma.serialize_datetime now <= Schedule.endTime s.
Proof.
  unfold where_current. cbv zeta.
  rewrite !Bool.andb_true_iff, String.eqb_eq, Z.leb_le, Z.geb_le.
  tauto.
Qed.

Lemma where_next_spec (s : Schedule.t) :
  where_next user now s = true <->
  Schedule.userId s = user /\
  now < Schedule.startTime s /\ Schedule.available s = true.
Proof.
  unfold where_next.
  rewrite !Bool.andb_true_iff, String.eqb_eq, Z.gtb_ltb, Z.ltb_lt.
  destruct (Schedule.available s); simpl; intuition congruence.
Qed.

Lemma where_next_false (s : Schedule.t) :
  where_next user now s = false ->
  Schedule.userId s = user -> now < Schedule.startTime s ->
  Schedule.available s = false.
Proof.
  intros Hf Hu Hlt.
  destruct (Schedule.available s) eqn:Ha; [|reflexivity].
  assert (Ht : where_next user now s = true)
    by (apply where_next_spec; auto).
  congruence.
Qed.

Lemma current_schedule_Some (cur : Schedule.loaded) :
  current_schedule db now user = Some cur ->
  In (Schedule.row cur) (schedules db) /\
  Schedule.userId (Schedule.row cur) = user /\
  Schedule.startTime (Schedule.row cur) <= Prisma.serialize_datetime now /\
  Prisma.serialize_datetime now <= Schedule.endTime (Schedule.row cur) /\
  Schedule.Appointment cur = linked_appointments db (Schedule.row cur).
Proof.
  unfold current_schedule. intros H.
  destruct (Prisma.find_first (where_current user now) (schedules db))
    as [s|] eqn:E; simpl in H; [|discriminate].
  inversion H; subst; clear H. simpl.
  apply find_first_Some in E. destruct E as [Hin Hw].
  apply where_current_spec in Hw. tauto.
Qed.

Lemma current_schedule_None :
  current_schedule db now user = None <->
  forall s, In s (schedules db) -> Schedule.userId s = user ->
            ~ (Schedule.startTime s <= Prisma.serialize_datetime now
               /\ Prisma.serialize_datetime now <= Schedule.endTime s).
Proof.
  unfold current_schedule. split.
  - intros H s Hin Hu Hint.
    destruct (Prisma.find_first (where_current user now) (schedules db))
      eqn:E; simpl in H; [discriminate|].
    rewrite find_first_None in E. specialize (E s Hin).
    assert (where_current user now s = true)
      by (apply where_current_spec; tauto).
    congruence.
  - intros H.
    destruct (Prisma.find_first (where_current user now) (schedules db))
      as [s|] eqn:E; simpl; [|reflexivity].
    apply find_first_Some in E. destruct E as [Hin Hw].
    apply where_current_spec in Hw. exfalso. apply (H s); tauto.
Qed.

Lemma next_available_Some (next : Schedule.t) :
  next_available_schedule db now user = Some next ->
  In next (schedules db) /\ Schedule.userId next = user /\
  now < Schedule.startTime next /\ Schedule.available next = true /\
  forall s, In s (schedules db) -> Schedule.userId s = user ->
            now < Schedule.startTime s -> Schedule.available s = true ->
            Schedule.startTime next <= Schedule.startTime s.
Proof.
  unfold next_available_schedule. intros H.
  apply find_first_asc_Some in H. destruct H as (Hin & Hw & Hle).
  apply where_next_spec in Hw. destruct Hw as (Hu & Hlt & Ha).
  repeat split; trivial.
  intros s Hs Hsu Hslt Hsa. apply Hle; trivial.
  apply where_next_spec; auto.
Qed.

Lemma next_available_None :
  next_available_schedule db now user = None <->
  forall s, In s (schedules db) -> Schedule.userId s = user ->
            now < Schedule.startTime s -> Schedule.available s = false.
Proof.
  unfold next_available_schedule. split.
  - intros H s Hin Hu Hlt.
    apply where_next_false; trivial.
    exact (find_first_asc_None _ _ _ H s Hin).
  - intros H.
    destruct (Prisma.find_first_asc (where_next user now) Schedule.startTime
                (schedules db)) as [n|] eqn:E; [|reflexivity].
    apply find_first_asc_Some in E. destruct E as (Hin & Hw & _).
    apply where_next_spec in Hw. destruct Hw as (Hu & Hlt & Ha).
    rewrite (H n Hin Hu Hlt) in Ha. discriminate.
Qed.

End Availability.

(** *** Worked examples *)

Example get_availability_free :
  get_availability Sample.free (Sample.at_ 10 30) "u1"
  = mkGetAvailabilityResponse "u1" true (Some "Available") None.
Proof. reflexivity. Qed.

Example get_availability_booked :
  get_availability Sample.booked (Sample.at_ 10 30) "u1"
  = mkGetAvailabilityResponse "u1" false
      (Some "Unavailable until 2024-01-01 11:30") (Some 60).
Proof. vm_compute. reflexivity. Qed.

(** 59 minutes and 59.999999 seconds still count as 59 minutes. *)
Example get_availability_truncates :
  timeUntilNextAvailability
    (get_availability Sample.booked (Sample.at_ 10 30 + 1) "u1")
  = Some 59.
Proof. vm_compute. reflexivity. Qed.

Example get_availability_other_user :
  get_availability Sample.booked (Sample.at_ 10 30) "u2"
  = mkGetAvailabilityResponse "u2" false
      (Some "No current schedules found") None.
Proof. reflexivity. Qed.

(** *** The branches of [get_availability] *)

Section AvailabilityBranches.

Variable db : Store.
Variable now : Py.datetime.
Variable user : string.

Lemma get_availability_none :
  current_schedule db now user = None ->
  get_availability db now user
  = mkGetAvailabilityResponse user false
      (Some "No current schedules found") None.
Proof. unfold get_availability. now intros ->. Qed.

Lemma get_availability_free_branch (cur : Schedule.loaded) :
  current_schedule db now user = Some cur ->
  Schedule.available (Schedule.row cur) = true ->
  Schedule.Appointment cur = [] ->
  get_availability db now user
  = mkGetAvailabilityResponse user true (Some "Available") None.
Proof.
  unfold get_availability. intros -> -> ->. reflexivity.
Qed.

Lemma busy_test (cur : Schedule.loaded) :
  Schedule.available (Schedule.row cur) = false
  \/ Schedule.Appointment cur <> [] ->
  Schedule.available (Schedule.row cur)
  && negb (Py.truthy_list (Schedule.Appointment cur)) = false.
Proof.
  intros [->|Hne]; [reflexivity|].
  destruct (Schedule.Appointment cur); [congruence|].
  simpl. apply Bool.andb_false_r.
Qed.

Lemma busy_test_inv (cur : Schedule.loaded) :
  Schedule.available (Schedule.row cur)
  && negb (Py.truthy_list (Schedule.Appointment cur)) = false ->
  Schedule.available (Schedule.row cur) = false
  \/ Schedule.Appointment cur <> [].
Proof.
  destruct (Schedule.available (Schedule.row cur)); [|now left].
  destruct (Schedule.Appointment cur); simpl; [discriminate|].
  intros _. right. discriminate.
Qed.

Lemma get_availability_busy_next (cur : Schedule.loaded)
  (next : Schedule.t) :
  current_schedule db now user = Some cur ->
  Schedule.available (Schedule.row cur) = false
  \/ Schedule.Appointment cur <> [] ->
  next_available_schedule db now user = Some next ->
  get_availability db now user
  = mkGetAvailabilityResponse user false
      (Some ("Unavailable until "
               ++ Py.strftime_ymd_hm (Schedule.startTime next))%string)
      (Some (minutes_until now (Schedule.startTime next))).
Proof.
  unfold get_availability. intros -> Hb ->.
  now rewrite (busy_test cur Hb).
Qed.

Lemma get_availability_busy_last (cur : Schedule.loaded) :
  current_schedule db now user = Some cur ->
  Schedule.available (Schedule.row cur) = false
  \/ Schedule.Appointment cur <> [] ->
  next_available_schedule db now user = None ->
  get_availability db now user
  = mkGetAvailabilityResponse user false
      (Some "No more available schedules today") None.
Proof.
  unfold get_availability. intros -> Hb ->.
  now rewrite (busy_test cur Hb).
Qed.

End AvailabilityBranches.

(** *** Claims about [get_availability] *)

(** C1 (as amended).  If the schedule the lookup selects for the user (the
    first stored schedule of that user whose interval contains [now] as the
    client sends it, cut to whole milliseconds) is marked available and has
    no linked appointment, [get_availability] returns [isAvailable = true];
    and whenever it returns [isAvailable = true], the store holds a schedule
    of that user whose interval contains [now] cut to whole milliseconds,
    that is marked available and that has no linked appointment. *)
Theorem get_availability_available :
  forall (db : Store) (now : Py.datetime) (user : string),
    (forall cur,
        current_schedule db now user = Some cur ->
        Schedule.available (Schedule.row cur) = true ->
        Schedule.Appointment cur = [] ->
        isAvailable (get_availability db now user) = true)
    /\ (isAvailable (get_availability db now user) = true ->
        exists s,
          current_schedule db now user
          = Some (Prisma.include_Appointment db s)
          /\ In s (schedules db)
          /\ is_current_of user (Prisma.serialize_datetime now) s
          /\ Schedule.available s = true
          /\ linked_appointments db s = []).
Proof.
  intros db now user. split.
  - intros cur Hc Ha Hn.
    now rewrite (get_availability_free_branch db now user cur Hc Ha Hn).
  - intros Hav.
    destruct (current_schedule db now user) as [cur|] eqn:Hc.
    + destruct (current_schedule_Some db now user cur Hc)
        as (Hin & Hu & Hs & He & Hl).
      destruct (Schedule.available (Schedule.row cur)
                && negb (Py.truthy_list (Schedule.Appointment cur)))
        eqn:Hfree.
      * apply Bool.andb_true_iff in Hfree. destruct Hfree as [Ha Hn].
        apply Bool.negb_true_iff, truthy_list_false in Hn.
        exists (Schedule.row cur). repeat split; trivial.
        -- f_equal. destruct cur as [r l]. simpl in *.
           unfold Prisma.include_Appointment. f_equal.
           rewrite Hl. reflexivity.
        -- now rewrite <- Hl.
      * apply busy_test_inv in Hfree.
        destruct (next_available_schedule db now user) as [n|] eqn:Hn.
        -- rewrite (get_availability_busy_next db now user cur n Hc Hfree Hn)
             in Hav. discriminate.
        -- rewrite (get_availability_busy_last db now user cur Hc Hfree Hn)
             in Hav. discriminate.
    + rewrite (get_availability_none db now user Hc) in Hav. discriminate.
Qed.

Lemma get_availability_available_witness :
  isAvailable (get_availability Sample.free (Sample.at_ 10 30) "u1") = true
  /\ exists s,
      In s (schedules Sample.free)
      /\ is_current_of "u1" (Sample.at_ 10 30) s
      /\ Schedule.available s = true.
Proof.
  destruct (get_availability_available Sample.free (Sample.at_ 10 30) "u1")
    as [Hif Honly].
  assert (Hav : isAvailable
                  (get_availability Sample.free (Sample.at_ 10 30) "u1")
                = true).
  { apply (Hif (Prisma.include_Appointment Sample.free Sample.morning));
      reflexivity. }
  split; [exact Hav|].
  destruct (Honly Hav) as (s & _ & Hin & Hcur & Ha & _).
  exists s. split; [exact Hin|]. split; [exact Hcur|exact Ha].
Defined.

(** Half a millisecond after the end of the schedule the filter instant is
    still 11:00:00.000, and the answer is still "Available". *)
Example available_just_after_the_end :
  get_availability Sample.free MoreAccounts.just_after_eleven "u1"
  = mkGetAvailabilityResponse "u1" true (Some "Available") None.
Proof. vm_compute. reflexivity. Qed.

(** C1 as stated fails when two schedules of the user cover [now]: the
    lookup selects the one stored first, here the unavailable one, although
    a free schedule exists. *)
Lemma free_schedule_behind_unavailable_one :
  (exists s,
      In s (schedules Sample.overlap_off_first)
      /\ is_current_of "u1" (Sample.at_ 10 30) s
      /\ Schedule.available s = true
      /\ linked_appointments Sample.overlap_off_first s = [])
  /\ isAvailable
       (get_availability Sample.overlap_off_first (Sample.at_ 10 30) "u1")
     = false.
Proof.
  split; [|reflexivity].
  exists Sample.morning. unfold is_current_of.
  repeat split; simpl; auto; vm_compute; congruence.
Qed.

Lemma busy_reports_forward_search (db : Store) (now : Py.datetime)
  (user : string) (cur : Schedule.loaded) :
  current_schedule db now user = Some cur ->
  Schedule.available (Schedule.row cur) = false
  \/ Schedule.Appointment cur <> [] ->
  isAvailable (get_availability db now user) = false
  /\ reports_forward_search db now user (get_availability db now user).
Proof.
  intros Hc Hb. unfold reports_forward_search.
  destruct (next_available_schedule db now user) as [next|] eqn:Hn.
  - rewrite (get_availability_busy_next db now user cur next Hc Hb Hn).
    destruct (next_available_Some db now user next Hn)
      as (Hin & Hu & Hlt & Ha & Hmin).
    simpl. repeat split; trivial.
    + intros s Hs (Hsu & Hslt & Hsa). now apply Hmin.
    + intros Hcentury. now apply minutes_until_floor.
  - rewrite (get_availability_busy_last db now user cur Hc Hb Hn).
    simpl. repeat split; trivial.
    intros s Hs (Hsu & Hslt & Hsa).
    rewrite next_available_None in Hn.
    rewrite (Hn s Hs Hsu Hslt) in Hsa. discriminate.
Qed.

(** C2 (as amended).  If the schedule the lookup selects for the user (the
    first stored schedule of that user whose interval contains [now]) has at
    least one linked appointment, then whatever its [available] flag,
    [get_availability] returns [isAvailable = false] and reports the forward
    search: the schedule of the same user with [startTime > now] and
    [available = true] of earliest [startTime], or that none exists. *)
Theorem get_availability_booked_searches_forward :
  forall (db : Store) (now : Py.datetime) (user : string)
         (cur : Schedule.loaded),
    current_schedule db now user = Some cur ->
    Schedule.Appointment cur <> [] ->
    isAvailable (get_availability db now user) = false
    /\ reports_forward_search db now user (get_availability db now user).
Proof.
  intros db now user cur Hc Hne.
  apply (busy_reports_forward_search db now user cur Hc). now right.
Qed.

Lemma get_availability_booked_searches_forward_witness :
  isAvailable (get_availability Sample.booked (Sample.at_ 10 30) "u1") = false
  /\ reports_forward_search Sample.booked (Sample.at_ 10 30) "u1"
       (get_availability Sample.booked (Sample.at_ 10 30) "u1").
Proof.
  apply (get_availability_booked_searches_forward Sample.booked
           (Sample.at_ 10 30) "u1"
           (Prisma.include_Appointment Sample.booked Sample.morning_booked)).
  - reflexivity.
  - simpl. discriminate.
Defined.

(** C2 as stated fails when two schedules of the user cover [now]: the
    booked one is stored second, the lookup selects the free one and the
    answer is [isAvailable = true]. *)
Lemma booked_schedule_behind_free_one :
  (exists s,
      In s (schedules Sample.overlap_free_first)
      /\ is_current_of "u1" (Sample.at_ 10 30) s
      /\ linked_appointments Sample.overlap_free_first s <> [])
  /\ isAvailable
       (get_availability Sample.overlap_free_first (Sample.at_ 10 30) "u1")
     = true.
Proof.
  split; [|reflexivity].
  exists Sample.morning_booked. unfold is_current_of.
  repeat split; simpl; auto; vm_compute; congruence.
Qed.

(** C3 (as amended).  Whenever the forward search finds a next available
    schedule (start strictly after [now], [available = true]), a
    [timeUntilNextAvailability] is returned and it is never negative; when
    that start is at most a century after [now], it equals the floor of the
    seconds from [now] to the start divided by 60, which is that quotient
    truncated toward zero and not rounded: the part it drops is less than a
    minute. *)
Theorem time_until_next_is_floor_of_minutes :
  forall (db : Store) (now : Py.datetime) (user : string)
         (cur : Schedule.loaded) (next : Schedule.t),
    current_schedule db now user = Some cur ->
    Schedule.available (Schedule.row cur) = false
    \/ Schedule.Appointment cur <> [] ->
    next_available_schedule db now user = Some next ->
    exists minutes,
      timeUntilNextAvailability (get_availability db now user)
      = Some minutes
      /\ now < Schedule.startTime next
      /\ Schedule.available next = true
      /\ 0 <= minutes
      /\ (Schedule.startTime next - now <= century ->
          minutes
          = Qfloor (((Schedule.startTime next - now) # 1000000) / (60 # 1))
          /\ minutes = Z.quot (Schedule.startTime next - now) 60000000
          /\ 60000000 * minutes <= Schedule.startTime next - now
             < 60000000 * (minutes + 1)).
Proof.
  intros db now user cur next Hc Hb Hn.
  destruct (next_available_Some db now user next Hn)
    as (_ & _ & Hlt & Ha & _).
  exists (minutes_until now (Schedule.startTime next)).
  rewrite (get_availability_busy_next db now user cur next Hc Hb Hn).
  cbn [timeUntilNextAvailability].
  split; [reflexivity|]. split; [exact Hlt|]. split; [exact Ha|].
  split; [now apply minutes_until_nonneg|].
  intros Hcentury.
  rewrite (minutes_until_floor now (Schedule.startTime next) Hlt Hcentury).
  set (d := Schedule.startTime next - now).
  assert (Hd : 0 < d) by (unfold d; lia).
  split; [|split].
  - unfold Qfloor, Qdiv, Qinv, Qmult. cbn [Qnum Qden].
    now rewrite Z.mul_1_r.
  - symmetry. apply Z.quot_div_nonneg; lia.
  - pose proof (Z.div_mod d 60000000 ltac:(lia)) as Hdm.
    pose proof (Z.mod_pos_bound d 60000000 ltac:(lia)) as Hr.
    lia.
Qed.

(** One microsecond after 10:30 the schedule of 11:30 is 59 minutes and
    59.999999 seconds away. *)
Lemma time_until_next_is_floor_of_minutes_witness :
  timeUntilNextAvailability
    (get_availability Sample.booked (Sample.at_ 10 30 + 1) "u1")
  = Some 59
  /\ Z.quot (Schedule.startTime Sample.late_morning
             - (Sample.at_ 10 30 + 1)) 60000000 = 59.
Proof.
  destruct (time_until_next_is_floor_of_minutes Sample.booked
              (Sample.at_ 10 30 + 1) "u1"
              (Prisma.include_Appointment Sample.booked Sample.morning_booked)
              Sample.late_morning)
    as (minutes & Hm & _ & _ & _ & Hfloor).
  - reflexivity.
  - right. simpl. discriminate.
  - reflexivity.
  - destruct Hfloor as (_ & Hq & _); [vm_compute; discriminate|].
    rewrite Hm, Hq. split; reflexivity.
Defined.

(** C3 as stated fails for a start far ahead: the seconds and their
    sixtieth are binary64 values, and for a schedule that starts on
    3000-01-01, seen one microsecond after 10:30 on 2024-01-01, the rounded
    quotient reaches the next whole minute: 513326250 is returned where the
    floor is 513326249. *)
Lemma far_start_reports_a_minute_more :
  next_available_schedule MoreAccounts.long_wait
    MoreAccounts.just_after_half_past_ten "u1"
  = Some MoreAccounts.far_ahead
  /\ MoreAccounts.just_after_half_past_ten
     < Schedule.startTime MoreAccounts.far_ahead
  /\ Schedule.available MoreAccounts.far_ahead = true
  /\ timeUntilNextAvailability
       (get_availability MoreAccounts.long_wait
          MoreAccounts.just_after_half_past_ten "u1")
     = Some 513326250
  /\ (Schedule.startTime MoreAccounts.far_ahead
      - MoreAccounts.just_after_half_past_ten) / 60000000
     = 513326249.
Proof.
  repeat split; vm_compute; reflexivity.
Qed.

(** C4 (as amended).  The interval test that selects the current schedule
    is inclusive at both ends: a stored schedule with [startTime <= endTime]
    (both in whole milliseconds, as the store holds them) passes the test at
    [now = startTime] and at [now = endTime], so both evaluations find a
    current schedule; and each selects this very schedule when none of the
    schedules stored before it is one of the same user that contains that
    instant. *)
Theorem current_interval_inclusive :
  forall (db : Store) (before after : list Schedule.t) (s : Schedule.t),
    schedules db = (before ++ s :: after)%list ->
    Schedule.startTime s <= Schedule.endTime s ->
    Prisma.serialize_datetime (Schedule.startTime s) = Schedule.startTime s ->
    Prisma.serialize_datetime (Schedule.endTime s) = Schedule.endTime s ->
    let user := Schedule.userId s in
    where_current user (Schedule.startTime s) s = true
    /\ where_current user (Schedule.endTime s) s = true
    /\ forall now,
        now = Schedule.startTime s \/ now = Schedule.endTime s ->
        current_schedule db now user <> None
        /\ ((forall s', In s' before -> ~ is_current_of user now s') ->
            current_schedule db now user
            = Some (Prisma.include_Appointment db s)).
Proof.
  intros db before after s Hdb Hle Hms Hme user.
  assert (Hs : where_current user (Schedule.startTime s) s = true)
    by (apply where_current_spec; unfold user; rewrite Hms;
        repeat split; trivial; lia).
  assert (He : where_current user (Schedule.endTime s) s = true)
    by (apply where_current_spec; unfold user; rewrite Hme;
        repeat split; trivial; lia).
  split; [exact Hs|]. split; [exact He|].
  intros now Hnow.
  assert (Hw : where_current user now s = true)
    by (destruct Hnow as [->| ->]; trivial).
  assert (Hcut : Prisma.serialize_datetime now = now)
    by (destruct Hnow as [->| ->]; trivial).
  unfold current_schedule, Prisma.find_first. rewrite Hdb. split.
  - destruct (List.find (where_current user now)
                (before ++ s :: after)%list)
      eqn:E; simpl; [discriminate|].
    pose proof (List.find_none _ _ E s) as Hnone.
    rewrite Hw in Hnone.
    assert (In s (before ++ s :: after)%list)
      by (apply List.in_or_app; right; now left).
    specialize (Hnone H). discriminate.
  - intros Hbefore.
    assert (Hfind : List.find (where_current user now)
                      (before ++ s :: after)%list = Some s).
    { clear Hdb. induction before as [|x before IH]; simpl.
      - now rewrite Hw.
      - destruct (where_current user now x) eqn:Hx.
        + exfalso. apply (Hbefore x (or_introl eq_refl)).
          apply where_current_spec in Hx. rewrite Hcut in Hx. exact Hx.
        + apply IH. intros s' Hs'. apply Hbefore. now right. }
    now rewrite Hfind.
Qed.

(** At 11:30 the third stored schedule starts and neither of the two before
    it is current; at 11:00 the only schedule of [Sample.free] ends. *)
Lemma current_interval_inclusive_witness :
  current_schedule Sample.booked (Sample.at_ 11 30) "u1"
  = Some (Prisma.include_Appointment Sample.booked Sample.late_morning)
  /\ current_schedule Sample.free (Sample.at_ 11 0) "u1"
     = Some (Prisma.include_Appointment Sample.free Sample.morning).
Proof.
  assert (Hlate : Schedule.startTime Sample.late_morning
                  <= Schedule.endTime Sample.late_morning)
    by (vm_compute; discriminate).
  assert (Hmorning : Schedule.startTime Sample.morning
                     <= Schedule.endTime Sample.morning)
    by (vm_compute; discriminate).
  pose proof (current_interval_inclusive Sample.booked
                [Sample.morning_booked; Sample.noon] [] Sample.late_morning
                eq_refl Hlate eq_refl eq_refl) as (_ & _ & Hb).
  pose proof (current_interval_inclusive Sample.free [] [] Sample.morning
                eq_refl Hmorning eq_refl eq_refl) as (_ & _ & Hf).
  split.
  - apply (Hb (Sample.at_ 11 30)); [now left|].
    intros s' [<-|[<-|[]]] (_ & Hs & He).
    + vm_compute in He. apply He. reflexivity.
    + vm_compute in Hs. apply Hs. reflexivity.
  - apply (Hf (Sample.at_ 11 0)); [now right|].
    intros s' [].
Defined.

(** C4 as stated fails for two schedules back to back: at 11:00 the second
    one starts, but the first one, which ends at that instant and is stored
    before it, is the one selected, and the answer is unavailable although
    the schedule that starts is marked available and has no appointment. *)
Lemma starting_schedule_behind_ending_one :
  In MoreAccounts.eleven (schedules MoreAccounts.back_to_back)
  /\ Schedule.startTime MoreAccounts.eleven = Sample.at_ 11 0
  /\ Schedule.available MoreAccounts.eleven = true
  /\ linked_appointments MoreAccounts.back_to_back MoreAccounts.eleven = []
  /\ current_schedule MoreAccounts.back_to_back (Sample.at_ 11 0) "u1"
     = Some (Prisma.include_Appointment MoreAccounts.back_to_back
               Sample.morning_off)
  /\ Sample.morning_off <> MoreAccounts.eleven
  /\ isAvailable
       (get_availability MoreAccounts.back_to_back (Sample.at_ 11 0) "u1")
     = false.
Proof.
  repeat split; try reflexivity.
  - simpl. auto.
  - discriminate.
Qed.

(** C6 (as amended).  For a user with no schedule whose interval contains
    [now] cut to whole milliseconds (the instant the client sends),
    [get_availability] returns [isAvailable = false], the message
    "No current schedules found" and no [timeUntilNextAvailability]. *)
Theorem get_availability_no_current_schedule :
  forall (db : Store) (now : Py.datetime) (user : string),
    (forall s, In s (schedules db) ->
               ~ is_current_of user (Prisma.serialize_datetime now) s) ->
    get_availability db now user
    = mkGetAvailabilityResponse user false
        (Some "No current schedules found") None.
Proof.
  intros db now user Hnone.
  apply get_availability_none.
  apply current_schedule_None.
  intros s Hin Hu Hint. apply (Hnone s Hin). unfold is_current_of. tauto.
Qed.

Lemma get_availability_no_current_schedule_witness :
  get_availability Sample.later_only (Sample.at_ 10 30) "u1"
  = mkGetAvailabilityResponse "u1" false
      (Some "No current schedules found") None.
Proof.
  apply (get_availability_no_current_schedule Sample.later_only
           (Sample.at_ 10 30) "u1").
  intros s [<-|[]] (_ & Hs & _).
  vm_compute in Hs. apply Hs. reflexivity.
Defined.

(** C6 as stated fails within a millisecond after the end of a schedule:
    half a millisecond after 11:00 no schedule contains [now], yet the
    filter instant is 11:00:00.000 and the answer is "Available". *)
Lemma ended_schedule_still_matches :
  (forall s, In s (schedules Sample.free) ->
             ~ is_current_of "u1" MoreAccounts.just_after_eleven s)
  /\ get_availability Sample.free MoreAccounts.just_after_eleven "u1"
     = mkGetAvailabilityResponse "u1" true (Some "Available") None.
Proof.
  split; [|vm_compute; reflexivity].
  intros s [<-|[]] (_ & _ & He).
  vm_compute in He. apply He. reflexivity.
Qed.

(** C7 (as amended).  If the schedule the lookup selects for the user (the
    first stored schedule of that user whose interval contains [now]) is
    marked unavailable or has a linked appointment, and no schedule of the
    same user has [startTime > now] and [available = true], then
    [get_availability] returns [isAvailable = false], no
    [timeUntilNextAvailability], and the message
    "No more available schedules today". *)
Theorem get_availability_no_further_schedule :
  forall (db : Store) (now : Py.datetime) (user : string)
         (cur : Schedule.loaded),
    current_schedule db now user = Some cur ->
    Schedule.available (Schedule.row cur) = false
    \/ Schedule.Appointment cur <> [] ->
    (forall s, In s (schedules db) -> ~ is_upcoming_of user now s) ->
    get_availability db now user
    = mkGetAvailabilityResponse user false
        (Some "No more available schedules today") None.
Proof.
  intros db now user cur Hc Hb Hnone.
  apply (get_availability_busy_last db now user cur Hc Hb).
  apply next_available_None.
  intros s Hin Hu Hlt.
  destruct (Schedule.available s) eqn:Ha; [|reflexivity].
  exfalso. apply (Hnone s Hin). unfold is_upcoming_of. tauto.
Qed.

Lemma get_availability_no_further_schedule_witness :
  get_availability Sample.booked_last (Sample.at_ 10 30) "u1"
  = mkGetAvailabilityResponse "u1" false
      (Some "No more available schedules today") None.
Proof.
  apply (get_availability_no_further_schedule Sample.booked_last
           (Sample.at_ 10 30) "u1"
           (Prisma.include_Appointment Sample.booked_last
              Sample.morning_booked)).
  - reflexivity.
  - right. simpl. discriminate.
  - intros s [<-|[]] (_ & Hs & _).
    vm_compute in Hs. discriminate.
Defined.

(** C7 as stated fails when two schedules of the user cover [now]: a
    booked current schedule exists and nothing is upcoming, yet the lookup
    selects the free schedule stored first and the answer is
    [isAvailable = true]. *)
Lemma busy_schedule_behind_free_one_no_further :
  (exists s,
      In s (schedules Sample.overlap_free_first)
      /\ is_current_of "u1" (Sample.at_ 10 30) s
      /\ (Schedule.available s = false
          \/ linked_appointments Sample.overlap_free_first s <> []))
  /\ (forall s, In s (schedules Sample.overlap_free_first) ->
                ~ is_upcoming_of "u1" (Sample.at_ 10 30) s)
  /\ isAvailable
       (get_availability Sample.overlap_free_first (Sample.at_ 10 30) "u1")
     = true.
Proof.
  split; [|split; [|reflexivity]].
  - exists Sample.morning_booked. unfold is_current_of.
    repeat split; simpl; auto; try (vm_compute; congruence).
    right. vm_compute. congruence.
  - intros s [<-|[<-|[]]] (_ & Hs & _); vm_compute in Hs; discriminate.
Qed.

(** The message of the branch that finds no further schedule is
    the literal "No more available schedules today". *)
Example no_further_schedule_message :
  message (get_availability Sample.booked_last (Sample.at_ 10 30) "u1")
  <> Some "no further availability in the visible horizon".
Proof. vm_compute. discriminate. Qed.

(** C10 (as amended).  The result of [get_availability] always carries a
    message; it carries a [timeUntilNextAvailability] exactly when
    [isAvailable = false], some schedule of the user has an interval that
    contains [now] cut to whole milliseconds (the instant the client
    sends), and some schedule of the same user has [startTime > now] and
    [available = true]; a result with [isAvailable = true] never carries
    one. *)
Theorem get_availability_response_shape :
  forall (db : Store) (now : Py.datetime) (user : string),
    let r := get_availability db now user in
    message r <> None
    /\ (timeUntilNextAvailability r <> None <->
        isAvailable r = false
        /\ (exists c, In c (schedules db)
                      /\ is_current_of user (Prisma.serialize_datetime now) c)
        /\ (exists n, In n (schedules db) /\ is_upcoming_of user now n))
    /\ (isAvailable r = true -> timeUntilNextAvailability r = None).
Proof.
  intros db now user r. unfold r; clear r.
  destruct (current_schedule db now user) as [cur|] eqn:Hc.
  - destruct (current_schedule_Some db now user cur Hc)
      as (Hin & Hu & Hs & He & _).
    assert (Hcur : exists c,
               In c (schedules db)
               /\ is_current_of user (Prisma.serialize_datetime now) c)
      by (exists (Schedule.row cur); unfold is_current_of; tauto).
    destruct (Schedule.available (Schedule.row cur)
              && negb (Py.truthy_list (Schedule.Appointment cur)))
      eqn:Hfree.
    + apply Bool.andb_true_iff in Hfree. destruct Hfree as [Ha Hn].
      apply Bool.negb_true_iff, truthy_list_false in Hn.
      rewrite (get_availability_free_branch db now user cur Hc Ha Hn).
      simpl. repeat split; try discriminate; try congruence.
      intros (Hf & _). discriminate.
    + apply busy_test_inv in Hfree.
      destruct (next_available_schedule db now user) as [n|] eqn:Hn.
      * rewrite (get_availability_busy_next db now user cur n Hc Hfree Hn).
        destruct (next_available_Some db now user n Hn)
          as (Hnin & Hnu & Hnlt & Hna & _).
        simpl. repeat split; try discriminate; trivial.
        exists n. unfold is_upcoming_of. tauto.
      * rewrite (get_availability_busy_last db now user cur Hc Hfree Hn).
        simpl. repeat split; try discriminate; try congruence.
        intros (_ & _ & (n & Hnin & Hnu & Hnlt & Hna)).
        rewrite next_available_None in Hn.
        rewrite (Hn n Hnin Hnu Hnlt) in Hna. discriminate.
  - rewrite (get_availability_none db now user Hc).
    simpl. repeat split; try discriminate; try congruence.
    intros (_ & (c & Hcin & Hcu & Hcs & Hce) & _).
    rewrite current_schedule_None in Hc.
    exfalso. apply (Hc c Hcin Hcu). tauto.
Qed.

Lemma get_availability_response_shape_witness :
  timeUntilNextAvailability
    (get_availability Sample.booked (Sample.at_ 10 30) "u1") <> None
  /\ timeUntilNextAvailability
       (get_availability Sample.free (Sample.at_ 10 30) "u1") = None.
Proof.
  split.
  - destruct (get_availability_response_shape Sample.booked
                (Sample.at_ 10 30) "u1") as (_ & Hiff & _).
    apply Hiff. split; [reflexivity|]. split.
    + exists Sample.morning_booked. unfold is_current_of.
      repeat split; simpl; auto; vm_compute; discriminate.
    + exists Sample.late_morning. unfold is_upcoming_of.
      repeat split; simpl; auto.
  - destruct (get_availability_response_shape Sample.free
                (Sample.at_ 10 30) "u1") as (_ & _ & Hav).
    apply Hav. reflexivity.
Defined.

(** C10 as stated fails when no schedule of the user contains [now]: the
    answer is [isAvailable = false] and an upcoming available schedule
    exists, yet no [timeUntilNextAvailability] is reported. *)
Lemma no_current_schedule_reports_no_time_until :
  isAvailable (get_availability Sample.later_only (Sample.at_ 10 30) "u1")
  = false
  /\ (exists n,
         In n (schedules Sample.later_only)
         /\ is_upcoming_of "u1" (Sample.at_ 10 30) n)
  /\ timeUntilNextAvailability
       (get_availability Sample.later_only (Sample.at_ 10 30) "u1")
     = None.
Proof.
  split; [reflexivity|]. split; [|reflexivity].
  exists Sample.late_morning. unfold is_upcoming_of.
  repeat split; simpl; auto.
Qed.

(** *** Stores without overlapping schedules

    When at most one schedule of the user contains the instant the client
    sends, the schedule the lookup selects is that schedule, and the
    availability rules can be read off any current schedule. *)

Section NoOverlap.

Variable db : Store.
Variable now : Py.datetime.
Variable user : string.

Hypothesis at_most_one_current :
  forall s s', In s (schedules db) -> In s' (schedules db) ->
               is_current_of user (Prisma.serialize_datetime now) s ->
               is_current_of user (Prisma.serialize_datetime now) s' ->
               s = s'.

Lemma selected_when_unique (s : Schedule.t) :
  In s (schedules db) ->
  is_current_of user (Prisma.serialize_datetime now) s ->
  current_schedule db now user = Some (Prisma.include_Appointment db s).
Proof.
  intros Hin Hcur.
  assert (Hw : where_current user now s = true)
    by now apply where_current_spec.
  destruct (find_first_exists (where_current user now) (schedules db) s
              Hin Hw) as [s' Hs'].
  unfold current_schedule. rewrite Hs'. simpl.
  apply find_first_Some in Hs'. destruct Hs' as [Hin' Hw'].
  apply where_current_spec in Hw'.
  now rewrite (at_most_one_current s s' Hin Hin' Hcur Hw').
Qed.

Lemma free_schedule_when_unique (s : Schedule.t) :
  In s (schedules db) ->
  is_current_of user (Prisma.serialize_datetime now) s ->
  Schedule.available s = true -> linked_appointments db s = [] ->
  isAvailable (get_availability db now user) = true.
Proof.
  intros Hin Hcur Ha Hl.
  now rewrite (get_availability_free_branch db now user _
                 (selected_when_unique s Hin Hcur) Ha Hl).
Qed.

Lemma busy_schedule_when_unique (s : Schedule.t) :
  In s (schedules db) ->
  is_current_of user (Prisma.serialize_datetime now) s ->
  Schedule.available s = false \/ linked_appointments db s <> [] ->
  isAvailable (get_availability db now user) = false.
Proof.
  intros Hin Hcur Hb.
  pose proof (selected_when_unique s Hin Hcur) as Hc.
  destruct (next_available_schedule db now user) as [n|] eqn:Hn.
  - now rewrite (get_availability_busy_next db now user _ n Hc Hb Hn).
  - now rewrite (get_availability_busy_last db now user _ Hc Hb Hn).
Qed.

End NoOverlap.

(** ** Updates of a table by key *)

Section UpdateByKey.

Context {A : Type}.
Variable data : A -> A.

Lemma update_map_invariant {B : Type} (f : A -> B) (w : A -> bool)
  (rows : list A) :
  (forall x, f (data x) = f x) ->
  List.map f (Prisma.update w data rows) = List.map f rows.
Proof.
  intros Hf. induction rows as [|a rows IH]; simpl; [reflexivity|].
  destruct (w a); simpl; [now rewrite Hf|now rewrite IH].
Qed.

End UpdateByKey.

Lemma find_unique_Some {A : Type} (where_ : A -> bool) (rows : list A)
  (r : A) :
  Prisma.find_unique where_ rows = Some r -> In r rows /\ where_ r = true.
Proof. apply List.find_some. Qed.

Lemma find_unique_None {A : Type} (where_ : A -> bool) (rows : list A) :
  Prisma.find_unique where_ rows = None <->
  forall r, In r rows -> where_ r = false.
Proof. apply find_first_None. Qed.

(** ** [refresh_token] *)

Section RefreshToken.

Context {J : Jose}.

Variable db : Store.
Variables utcnow1 utcnow2 utcnow3 : Py.datetime.
Variable tok : string.

Lemma refresh_token_absent :
  stored_token db tok = None ->
  refresh_token db utcnow1 utcnow2 utcnow3 tok
  = (db, inl invalid_refresh_token).
Proof.
  unfold stored_token, refresh_token. now intros ->.
Qed.

Lemma refresh_token_stored (a : AuthToken.t) :
  stored_token db tok = Some a ->
  refresh_token db utcnow1 utcnow2 utcnow3 tok
  = (db,
     inl (Py.TypeError
            "can't compare offset-naive and offset-aware datetimes")).
Proof.
  unfold stored_token, refresh_token. now intros ->.
Qed.

End RefreshToken.

(** C5 (the code departs from the claim).  Whenever a stored record carries
    the presented token, [refresh_token] raises [TypeError] at its expiry
    check, which compares the naive reading of [datetime.utcnow()] with the
    aware [expiryDate] of the record, and leaves the store as it was: no
    token is rotated, and a token past its expiry is not reported with the
    invalid-token error. *)
Theorem refresh_token_raises_on_stored_token :
  forall (J : Jose) (db : Store) (utcnow1 utcnow2 utcnow3 : Py.datetime)
         (t : string) (a : AuthToken.t),
    stored_token db t = Some a ->
    refresh_token db utcnow1 utcnow2 utcnow3 t
    = (db,
       inl (Py.TypeError
              "can't compare offset-naive and offset-aware datetimes")).
Proof.
  intros J db utcnow1 utcnow2 utcnow3 t a.
  apply refresh_token_stored.
Qed.

(** A token two hours before its expiry. *)
Lemma refresh_token_raises_on_stored_token_witness :
  @refresh_token Model.jose Accounts.session
    (Sample.at_ 10 0) (Sample.at_ 10 0) (Sample.at_ 10 0)
    "seed-refresh-token"
  = (Accounts.session,
     inl (Py.TypeError
            "can't compare offset-naive and offset-aware datetimes")).
Proof.
  apply (refresh_token_raises_on_stored_token Model.jose Accounts.session
           (Sample.at_ 10 0) (Sample.at_ 10 0) (Sample.at_ 10 0)
           "seed-refresh-token"
           (AuthToken.mk "t1" "seed-refresh-token" (Sample.at_ 12 0) "u1")).
  reflexivity.
Defined.

(** The same token one minute after its expiry, and a token no record
    carries. *)
Example refresh_token_past_expiry :
  snd (@refresh_token Model.jose Accounts.session
         (Sample.at_ 12 1) (Sample.at_ 12 1) (Sample.at_ 12 1)
         "seed-refresh-token")
  = inl (Py.TypeError
           "can't compare offset-naive and offset-aware datetimes").
Proof. reflexivity. Qed.

Example refresh_token_unknown :
  snd (@refresh_token Model.jose Accounts.session
         (Sample.at_ 10 0) (Sample.at_ 10 0) (Sample.at_ 10 0)
         "never-issued")
  = inl (Py.ValueError "Refresh token is invalid or has expired.").
Proof. reflexivity. Qed.

(** ** [update_user] *)

Lemma profile_update_keeps_lastName (rows : list Profile.t) (id : string)
  (firstName : option string) :
  List.map (fun p => (Profile.userId p, Profile.lastName p))
    (Profile_update rows id (mkProfilePayload firstName None))
  = List.map (fun p => (Profile.userId p, Profile.lastName p)) rows.
Proof.
  unfold Profile_update. apply update_map_invariant.
  intros p. reflexivity.
Qed.

(** C8.  An update that provides only [firstName] ([email], [lastName] and
    [role] are [None]) leaves the user table as it was, so the stored user
    row, with its email and role, is unchanged, and it leaves the [lastName]
    of every stored profile unchanged. *)
Theorem update_user_first_name_only :
  forall (db : Store) (id firstName : string),
    let db' := fst (update_user db id None (Some firstName) None None) in
    users db' = users db
    /\ List.map (fun p => (Profile.userId p, Profile.lastName p))
         (profiles db')
       = List.map (fun p => (Profile.userId p, Profile.lastName p))
           (profiles db)
    /\ Prisma.find_unique (fun v => (User.id v =? id)%string) (users db')
       = Prisma.find_unique (fun v => (User.id v =? id)%string) (users db).
Proof.
  intros db id firstName db'.
  assert (H : users db' = users db
              /\ List.map (fun p => (Profile.userId p, Profile.lastName p))
                   (profiles db')
                 = List.map (fun p => (Profile.userId p, Profile.lastName p))
                     (profiles db)).
  { unfold db', update_user. simpl.
    rewrite Bool.orb_false_r.
    destruct (negb (firstName =? EmptyString)%string).
    - destruct (Prisma.find_unique _ (profiles db)) as [profile|].
      + simpl.
        destruct (Prisma.find_unique _ (users db)); simpl;
          (split; [reflexivity|apply profile_update_keeps_lastName]).
      + destruct (Prisma.find_unique _ (users db)); simpl; auto.
    - destruct (Prisma.find_unique _ (users db)); simpl; auto. }
  destruct H as [Hu Hp]. repeat split; trivial.
  now rewrite Hu.
Qed.

Example update_user_first_name_sample :
  update_user Accounts.session "u1" None (Some "Augusta") None None
  = (mkStore [Accounts.ada] [Profile.mk "u1" "Augusta" "Lovelace"] [] []
       (auth_tokens Accounts.session),
     inr (mkUpdateUserProfileResponse "u1" (Some "ada@example.org")
            (Some "Augusta") None (Some "Professional")
            "User profile successfully updated.")).
Proof. vm_compute. reflexivity. Qed.

(** ** [login_user] *)

(** C9.  A login whose email matches no stored user and a login whose email
    matches a user but whose password fails the hash check both fail with
    the same exception, [Exception("Invalid login credentials.")]: same
    kind, same message. *)
Theorem login_failures_indistinguishable :
  forall (B : Bcrypt) (J : Jose) (db : Store) (now1 now2 : Py.datetime)
         (email1 password1 email2 password2 : string) (user : User.t),
    Prisma.find_unique (fun u => (User.email u =? email1)%string) (users db)
    = None ->
    Prisma.find_unique (fun u => (User.email u =? email2)%string) (users db)
    = Some user ->
    checkpw password2 (User.password user) = inr false ->
    Login.login_user db now1 email1 password1
    = inl (Py.Exception "Invalid login credentials.")
    /\ Login.login_user db now2 email2 password2
       = inl (Py.Exception "Invalid login credentials.").
Proof.
  intros B J db now1 now2 email1 password1 email2 password2 user
    Hnone Hsome Hpw.
  unfold Login.login_user. rewrite Hnone, Hsome, Hpw.
  split; reflexivity.
Qed.

Lemma login_failures_indistinguishable_witness :
  @Login.login_user Model.bcrypt Model.jose Accounts.session
    (Sample.at_ 10 0) "eve@example.org" "correct horse"
  = inl (Py.Exception "Invalid login credentials.")
  /\ @Login.login_user Model.bcrypt Model.jose Accounts.session
       (Sample.at_ 10 5) "ada@example.org" "wrong horse"
     = inl (Py.Exception "Invalid login credentials.").
Proof.
  apply (login_failures_indistinguishable Model.bcrypt Model.jose
           Accounts.session (Sample.at_ 10 0) (Sample.at_ 10 5)
           "eve@example.org" "correct horse"
           "ada@example.org" "wrong horse" Accounts.ada).
  - reflexivity.
  - reflexivity.
  - reflexivity.
Defined.

Example login_success_sample :
  @Login.login_user Model.bcrypt Model.jose Accounts.session
    (Sample.at_ 10 0) "ada@example.org" "correct horse"
  = inr (mkUserLoginResponse
           "HS256.ada@example.org.1704105000.your_secret_key_here" 1800).
Proof. vm_compute. reflexivity. Qed.

(** * Further properties *)

(** ** [get_availability] *)

Lemma find_filter_implied {A : Type} (p q : A -> bool) (rows : list A) :
  (forall x, p x = true -> q x = true) ->
  List.find p (List.filter q rows) = List.find p rows.
Proof.
  intros Hpq. induction rows as [|a rows IH]; simpl; [reflexivity|].
  destruct (q a) eqn:Hq; simpl.
  - destruct (p a); [reflexivity|exact IH].
  - destruct (p a) eqn:Hp; [|exact IH].
    rewrite (Hpq a Hp) in Hq. discriminate.
Qed.

Lemma filter_filter_implied {A : Type} (p q : A -> bool) (rows : list A) :
  (forall x, p x = true -> q x = true) ->
  List.filter p (List.filter q rows) = List.filter p rows.
Proof.
  intros Hpq. induction rows as [|a rows IH]; simpl; [reflexivity|].
  destruct (q a) eqn:Hq; simpl.
  - destruct (p a); [now rewrite IH|exact IH].
  - destruct (p a) eqn:Hp; [|exact IH].
    rewrite (Hpq a Hp) in Hq. discriminate.
Qed.

Lemma current_schedule_only_own (db : Store) (now : Py.datetime)
  (user : string) :
  current_schedule (only_schedules_of user db) now user
  = current_schedule db now user.
Proof.
  unfold current_schedule, only_schedules_of, Prisma.find_first. simpl.
  rewrite find_filter_implied.
  - destruct (List.find (where_current user now) (schedules db));
      reflexivity.
  - intros s Hs. apply where_current_spec in Hs. destruct Hs as [Hu _].
    now apply String.eqb_eq.
Qed.

Lemma next_available_only_own (db : Store) (now : Py.datetime)
  (user : string) :
  next_available_schedule (only_schedules_of user db) now user
  = next_available_schedule db now user.
Proof.
  unfold next_available_schedule, only_schedules_of, Prisma.find_first_asc.
  simpl. rewrite filter_filter_implied; [reflexivity|].
  intros s Hs. apply where_next_spec in Hs. destruct Hs as [Hu _].
  now apply String.eqb_eq.
Qed.

(** X1.  The answer for a user depends on that user's schedules only:
    dropping every schedule of the other users from the store leaves the
    whole response unchanged. *)
Theorem get_availability_ignores_other_users :
  forall (db : Store) (now : Py.datetime) (user : string),
    get_availability (only_schedules_of user db) now user
    = get_availability db now user.
Proof.
  intros db now user. unfold get_availability.
  now rewrite current_schedule_only_own, next_available_only_own.
Qed.

Example get_availability_shared_store :
  get_availability MoreAccounts.shared (Sample.at_ 10 30) "u1"
  = get_availability Sample.booked (Sample.at_ 10 30) "u1".
Proof. vm_compute. reflexivity. Qed.

(** X2.  If the schedule the lookup selects is marked unavailable, the
    answer is [isAvailable = false] and the forward search is reported,
    whether or not an appointment is linked to it. *)
Theorem get_availability_unavailable_searches_forward :
  forall (db : Store) (now : Py.datetime) (user : string)
         (cur : Schedule.loaded),
    current_schedule db now user = Some cur ->
    Schedule.available (Schedule.row cur) = false ->
    isAvailable (get_availability db now user) = false
    /\ reports_forward_search db now user (get_availability db now user).
Proof.
  intros db now user cur Hc Ha.
  apply (busy_reports_forward_search db now user cur Hc). now left.
Qed.

Lemma get_availability_unavailable_searches_forward_witness :
  isAvailable
    (get_availability Sample.overlap_off_first (Sample.at_ 10 30) "u1")
  = false
  /\ reports_forward_search Sample.overlap_off_first (Sample.at_ 10 30) "u1"
       (get_availability Sample.overlap_off_first (Sample.at_ 10 30) "u1").
Proof.
  apply (get_availability_unavailable_searches_forward
           Sample.overlap_off_first (Sample.at_ 10 30) "u1"
           (Prisma.include_Appointment Sample.overlap_off_first
              Sample.morning_off)).
  - reflexivity.
  - reflexivity.
Defined.

(** X3.  Occupancy goes by linkage, not by the appointment's own times: as
    soon as the appointment table holds a row whose [scheduleId] is the id
    of the selected schedule, the answer is [isAvailable = false], at every
    instant of the schedule. *)
Theorem linked_appointment_blocks_whole_schedule :
  forall (db : Store) (now : Py.datetime) (user : string)
         (cur : Schedule.loaded) (a : Appointment.t),
    current_schedule db now user = Some cur ->
    In a (appointments db) ->
    Appointment.scheduleId a = Schedule.id (Schedule.row cur) ->
    isAvailable (get_availability db now user) = false.
Proof.
  intros db now user cur a Hc Hin Hid.
  apply (busy_reports_forward_search db now user cur Hc). right.
  destruct (current_schedule_Some db now user cur Hc) as (_ & _ & _ & _ & Hl).
  rewrite Hl. unfold linked_appointments, Prisma.include_Appointment. simpl.
  intros Hnil.
  assert (Hf : In a (List.filter
                       (fun a0 => (Appointment.scheduleId a0
                                   =? Schedule.id (Schedule.row cur))%string)
                       (appointments db))).
  { apply List.filter_In. split; trivial. now apply String.eqb_eq. }
  rewrite Hnil in Hf. destruct Hf.
Qed.

(** The visit ends at 10:45; at 10:50 the schedule is still blocked. *)
Lemma linked_appointment_blocks_whole_schedule_witness :
  isAvailable (get_availability Sample.booked (Sample.at_ 10 50) "u1")
  = false.
Proof.
  apply (linked_appointment_blocks_whole_schedule Sample.booked
           (Sample.at_ 10 50) "u1"
           (Prisma.include_Appointment Sample.booked Sample.morning_booked)
           Sample.visit).
  - reflexivity.
  - simpl. now left.
  - reflexivity.
Defined.

(** X4.  The message tells the branch taken: it is "Available" exactly
    when [isAvailable = true], and it is "No current schedules found"
    exactly when no schedule of the user has an interval that contains
    [now] cut to whole milliseconds, the instant the client sends. *)
Theorem get_availability_message_identifies_branch :
  forall (db : Store) (now : Py.datetime) (user : string),
    let r := get_availability db now user in
    (message r = Some "Available" <-> isAvailable r = true)
    /\ (message r = Some "No current schedules found" <->
        forall s, In s (schedules db) ->
                  ~ is_current_of user (Prisma.serialize_datetime now) s).
Proof.
  intros db now user r. unfold r; clear r.
  destruct (current_schedule db now user) as [cur|] eqn:Hc.
  - destruct (current_schedule_Some db now user cur Hc)
      as (Hin & Hu & Hs & He & _).
    assert (Hcur : ~ (forall s,
                         In s (schedules db) ->
                         ~ is_current_of user
                             (Prisma.serialize_datetime now) s)).
    { intros Hnone. apply (Hnone _ Hin). unfold is_current_of. tauto. }
    destruct (Schedule.available (Schedule.row cur)
              && negb (Py.truthy_list (Schedule.Appointment cur)))
      eqn:Hfree.
    + apply Bool.andb_true_iff in Hfree. destruct Hfree as [Ha Hn].
      apply Bool.negb_true_iff, truthy_list_false in Hn.
      rewrite (get_availability_free_branch db now user cur Hc Ha Hn).
      simpl. repeat split; trivial; try discriminate; tauto.
    + apply busy_test_inv in Hfree.
      destruct (next_available_schedule db now user) as [n|] eqn:Hn.
      * rewrite (get_availability_busy_next db now user cur n Hc Hfree Hn).
        simpl. repeat split; try discriminate; tauto.
      * rewrite (get_availability_busy_last db now user cur Hc Hfree Hn).
        simpl. repeat split; try discriminate; tauto.
  - rewrite (get_availability_none db now user Hc). simpl.
    rewrite current_schedule_None in Hc.
    repeat split; trivial; try discriminate.
    intros _ s Hin (Hu & Hs & He). apply (Hc s Hin Hu). tauto.
Qed.

(** ** [refresh_token] and [logout_user] *)

Lemma update_keeps_other_keys {A : Type} (key : A -> string) (k : string)
  (data : A -> A) (rows : list A) :
  (forall x, key (data x) = key x) ->
  List.filter (fun x => negb (key x =? k)%string)
    (Prisma.update (fun x => (key x =? k)%string) data rows)
  = List.filter (fun x => negb (key x =? k)%string) rows.
Proof.
  intros Hkey. induction rows as [|a rows IH]; simpl; [reflexivity|].
  destruct (key a =? k)%string eqn:E; simpl.
  - now rewrite Hkey, E.
  - rewrite E. simpl. now rewrite IH.
Qed.

Lemma refresh_token_keeps_store {J : Jose} (db : Store)
  (utcnow1 utcnow2 utcnow3 : Py.datetime) (t : string) :
  fst (refresh_token db utcnow1 utcnow2 utcnow3 t) = db.
Proof.
  destruct (stored_token db t) as [a|] eqn:E.
  - now rewrite (refresh_token_stored db utcnow1 utcnow2 utcnow3 t a E).
  - now rewrite (refresh_token_absent db utcnow1 utcnow2 utcnow3 t E).
Qed.

(** X5.  [refresh_token] raises
    [ValueError("Refresh token is invalid or has expired.")] exactly when no
    stored record carries the presented token; for a token that a record
    carries, expired or not, the error is the [TypeError] of the expiry
    check instead. *)
Theorem refresh_token_invalid_iff :
  forall (J : Jose) (db : Store) (utcnow1 utcnow2 utcnow3 : Py.datetime)
         (t : string),
    snd (refresh_token db utcnow1 utcnow2 utcnow3 t)
    = inl (Py.ValueError "Refresh token is invalid or has expired.")
    <-> stored_token db t = None.
Proof.
  intros J db utcnow1 utcnow2 utcnow3 t. split.
  - destruct (stored_token db t) as [a|] eqn:E; [|reflexivity].
    rewrite (refresh_token_stored db utcnow1 utcnow2 utcnow3 t a E).
    discriminate.
  - intros E.
    now rewrite (refresh_token_absent db utcnow1 utcnow2 utcnow3 t E).
Qed.

(** X6.  A call of [refresh_token] that raises leaves the store exactly as
    it was. *)
Theorem refresh_token_failure_keeps_store :
  forall (J : Jose) (db : Store) (utcnow1 utcnow2 utcnow3 : Py.datetime)
         (t : string) (e : Py.exn),
    snd (refresh_token db utcnow1 utcnow2 utcnow3 t) = inl e ->
    fst (refresh_token db utcnow1 utcnow2 utcnow3 t) = db.
Proof.
  intros J db utcnow1 utcnow2 utcnow3 t e _.
  apply refresh_token_keeps_store.
Qed.

Lemma refresh_token_failure_keeps_store_witness :
  fst (@refresh_token Model.jose Accounts.session
         (Sample.at_ 12 1) (Sample.at_ 12 1) (Sample.at_ 12 1)
         "seed-refresh-token")
  = Accounts.session.
Proof.
  apply (refresh_token_failure_keeps_store Model.jose Accounts.session
           (Sample.at_ 12 1) (Sample.at_ 12 1) (Sample.at_ 12 1)
           "seed-refresh-token"
           (Py.TypeError
              "can't compare offset-naive and offset-aware datetimes")).
  vm_compute. reflexivity.
Defined.

(** X8.  [refresh_token] keeps the token table well formed: if ids and
    token values are unique before the call, they are unique after it,
    whether the call succeeds or raises. *)
Theorem refresh_token_keeps_tokens_unique :
  forall (J : Jose) (db : Store) (utcnow1 utcnow2 utcnow3 : Py.datetime)
         (t : string),
    tokens_unique db ->
    tokens_unique (fst (refresh_token db utcnow1 utcnow2 utcnow3 t)).
Proof.
  intros J db utcnow1 utcnow2 utcnow3 t Huniq.
  now rewrite refresh_token_keeps_store.
Qed.

Lemma refresh_token_keeps_tokens_unique_witness :
  tokens_unique
    (fst (@refresh_token Model.jose MoreAccounts.two_sessions
            (Sample.at_ 10 0) (Sample.at_ 10 0) (Sample.at_ 10 0)
            "seed-refresh-token")).
Proof.
  apply (refresh_token_keeps_tokens_unique Model.jose
           MoreAccounts.two_sessions).
  split; simpl; repeat constructor; simpl; intuition discriminate.
Defined.

Lemma stored_token_after_logout (db : Store) (t : string) :
  stored_token (fst (logout_user db t)) t = None.
Proof.
  unfold stored_token, logout_user, PrismaMany.delete_many. simpl.
  apply find_unique_None. intros a Ha.
  apply List.filter_In in Ha. destruct Ha as [_ Ha].
  now apply Bool.negb_true_iff in Ha.
Qed.

(** X11.  Logout revokes the refresh token: after [logout_user(t)] every
    [refresh_token(t)] raises
    [ValueError("Refresh token is invalid or has expired.")] and changes
    nothing. *)
Theorem refresh_after_logout_fails :
  forall (J : Jose) (db : Store) (utcnow1 utcnow2 utcnow3 : Py.datetime)
         (t : string),
    refresh_token (fst (logout_user db t)) utcnow1 utcnow2 utcnow3 t
    = (fst (logout_user db t),
       inl (Py.ValueError "Refresh token is invalid or has expired.")).
Proof.
  intros J db utcnow1 utcnow2 utcnow3 t.
  apply refresh_token_absent. apply stored_token_after_logout.
Qed.

(** X12.  Logout touches the token table only and ends no other session:
    every record that carries another token value is still found under
    that value. *)
Theorem logout_keeps_other_tokens :
  forall (db : Store) (t t' : string),
    t' <> t ->
    same_but_tokens db (fst (logout_user db t))
    /\ stored_token (fst (logout_user db t)) t' = stored_token db t'.
Proof.
  intros db t t' Hne. split.
  - unfold same_but_tokens, logout_user. simpl. auto.
  - unfold stored_token, logout_user, PrismaMany.delete_many,
      Prisma.find_unique. simpl.
    apply find_filter_implied.
    intros a Ha. apply String.eqb_eq in Ha.
    apply Bool.negb_true_iff, String.eqb_neq. congruence.
Qed.

Lemma logout_keeps_other_tokens_witness :
  stored_token
    (fst (logout_user MoreAccounts.two_sessions "seed-refresh-token"))
    "other-refresh-token"
  = Some (AuthToken.mk "t2" "other-refresh-token" (Sample.at_ 12 0) "u2").
Proof.
  destruct (logout_keeps_other_tokens MoreAccounts.two_sessions
              "seed-refresh-token" "other-refresh-token") as [_ H].
  - discriminate.
  - rewrite H. reflexivity.
Defined.

Lemma filter_all_true {A : Type} (p : A -> bool) (rows : list A) :
  (forall x, In x rows -> p x = true) -> List.filter p rows = rows.
Proof.
  induction rows as [|a rows IH]; simpl; intros Hall; [reflexivity|].
  rewrite (Hall a (or_introl eq_refl)). f_equal.
  apply IH. intros x Hx. apply Hall. now right.
Qed.

(** X13.  Logging out with a token that no record carries changes nothing
    in the store and still answers "User successfully logged out.". *)
Theorem logout_unknown_token_is_noop :
  forall (db : Store) (t : string),
    stored_token db t = None ->
    logout_user db t
    = (db, mkLogoutUserResponse "User successfully logged out.").
Proof.
  intros db t Hnone. unfold logout_user, PrismaMany.delete_many.
  rewrite filter_all_true.
  - now destruct db.
  - intros a Ha. unfold stored_token in Hnone.
    rewrite find_unique_None in Hnone.
    now rewrite (Hnone a Ha).
Qed.

Lemma logout_unknown_token_is_noop_witness :
  logout_user Accounts.session "never-issued"
  = (Accounts.session,
     mkLogoutUserResponse "User successfully logged out.").
Proof.
  apply (logout_unknown_token_is_noop Accounts.session "never-issued").
  reflexivity.
Defined.

(** ** [update_user] *)

Lemma update_user_store (db : Store) (id : string)
  (email firstName lastName role : option string) :
  let db' := fst (update_user db id email firstName lastName role) in
  (users db' = users db
   \/ users db'
      = Prisma.update (fun v => (User.id v =? id)%string)
          (apply_user_payload (mkUserPayload email role)) (users db))
  /\ (profiles db' = profiles db
      \/ profiles db'
         = Profile_update (profiles db) id
             (mkProfilePayload firstName lastName))
  /\ schedules db' = schedules db
  /\ appointments db' = appointments db
  /\ auth_tokens db' = auth_tokens db.
Proof.
  unfold update_user.
  set (db1 := if Py.truthy_str firstName || Py.truthy_str lastName
              then _ else db).
  assert (H1 : users db1 = users db
               /\ (profiles db1 = profiles db
                   \/ profiles db1
                      = Profile_update (profiles db) id
                          (mkProfilePayload firstName lastName))
               /\ schedules db1 = schedules db
               /\ appointments db1 = appointments db
               /\ auth_tokens db1 = auth_tokens db).
  { unfold db1.
    destruct (Py.truthy_str firstName || Py.truthy_str lastName);
      [|tauto].
    destruct (Prisma.find_unique _ (profiles db)); simpl; tauto. }
  destruct H1 as (Hu & Hp & Hs & Ha & Ht).
  destruct (truthy_payload (mkUserPayload email role)).
  - unfold User_update. rewrite Hu.
    destruct (Prisma.find_unique _ (users db)) as [u|].
    + destruct (match payload_email (mkUserPayload email role) with
                | Some e => _
                | None => false
                end); simpl; tauto.
    + simpl. tauto.
  - destruct (Prisma.find_unique _ (users db1)); simpl; tauto.
Qed.

(** X14.  Whatever its arguments and whether it succeeds or raises,
    [update_user] adds and removes no row, never changes the id or the
    stored password of a user or the owner of a profile, and leaves the
    schedule, appointment and token tables as they were. *)
Theorem update_user_never_touches :
  forall (db : Store) (id : string)
         (email firstName lastName role : option string),
    let db' := fst (update_user db id email firstName lastName role) in
    List.map User.id (users db') = List.map User.id (users db)
    /\ List.map User.password (users db')
       = List.map User.password (users db)
    /\ List.map Profile.userId (profiles db')
       = List.map Profile.userId (profiles db)
    /\ schedules db' = schedules db
    /\ appointments db' = appointments db
    /\ auth_tokens db' = auth_tokens db.
Proof.
  intros db id email firstName lastName role db'.
  destruct (update_user_store db id email firstName lastName role)
    as ([Hu|Hu] & [Hp|Hp] & Hs & Ha & Ht); fold db' in Hu, Hp, Hs, Ha, Ht;
    rewrite Hu, Hp; unfold Profile_update;
    rewrite ?update_map_invariant by reflexivity;
    repeat split; trivial.
Qed.

(** X15.  The rows of the other users are out of reach: every user row and
    every profile row whose key differs from [id] is the same after
    [update_user(id, ...)] as before. *)
Theorem update_user_keeps_other_users :
  forall (db : Store) (id : string)
         (email firstName lastName role : option string),
    let db' := fst (update_user db id email firstName lastName role) in
    List.filter (fun u => negb (User.id u =? id)%string) (users db')
    = List.filter (fun u => negb (User.id u =? id)%string) (users db)
    /\ List.filter (fun p => negb (Profile.userId p =? id)%string)
         (profiles db')
       = List.filter (fun p => negb (Profile.userId p =? id)%string)
           (profiles db).
Proof.
  intros db id email firstName lastName role db'.
  destruct (update_user_store db id email firstName lastName role)
    as ([Hu|Hu] & [Hp|Hp] & _); fold db' in Hu, Hp;
    rewrite Hu, Hp; unfold Profile_update;
    rewrite ?(update_keeps_other_keys User.id) by reflexivity;
    rewrite ?(update_keeps_other_keys Profile.userId) by reflexivity;
    split; reflexivity.
Qed.

Lemma find_after_update {A : Type} (key : A -> string) (k : string)
  (data : A -> A) (rows : list A) :
  (forall x, key (data x) = key x) ->
  Prisma.find_unique (fun x => (key x =? k)%string)
    (Prisma.update (fun x => (key x =? k)%string) data rows)
  = option_map data
      (Prisma.find_unique (fun x => (key x =? k)%string) rows).
Proof.
  intros Hkey. unfold Prisma.find_unique.
  induction rows as [|a rows IH]; simpl; [reflexivity|].
  destruct (key a =? k)%string eqn:E; simpl.
  - now rewrite Hkey, E.
  - now rewrite E.
Qed.

(** X16.  For an id that no user row has, [update_user] raises
    [AttributeError("'NoneType' object has no attribute 'id'")] and the
    user table is unchanged. *)
Theorem update_user_missing_user :
  forall (db : Store) (id : string)
         (email firstName lastName role : option string),
    Prisma.find_unique (fun u => (User.id u =? id)%string) (users db)
    = None ->
    snd (update_user db id email firstName lastName role)
    = inl (Py.AttributeError "'NoneType' object has no attribute 'id'")
    /\ users (fst (update_user db id email firstName lastName role))
       = users db.
Proof.
  intros db id email firstName lastName role Hnone.
  unfold update_user.
  set (db1 := if Py.truthy_str firstName || Py.truthy_str lastName
              then _ else db).
  assert (Hu : users db1 = users db).
  { unfold db1.
    destruct (Py.truthy_str firstName || Py.truthy_str lastName);
      [|reflexivity].
    destruct (Prisma.find_unique _ (profiles db)); reflexivity. }
  destruct (truthy_payload (mkUserPayload email role)).
  - unfold User_update. rewrite Hu, Hnone. simpl. auto.
  - rewrite Hu, Hnone. simpl. auto.
Qed.

Lemma update_user_missing_user_witness :
  snd (update_user Accounts.session "u7" (Some "eve@example.org")
         (Some "Eve") None None)
  = inl (Py.AttributeError "'NoneType' object has no attribute 'id'")
  /\ users (fst (update_user Accounts.session "u7"
                   (Some "eve@example.org") (Some "Eve") None None))
     = users Accounts.session.
Proof.
  apply (update_user_missing_user Accounts.session "u7").
  reflexivity.
Defined.

(** X17.  A name that is absent or the empty string does not count as
    provided: when neither [firstName] nor [lastName] is a non-empty string,
    the profile table is left as it was, whatever [email] and [role] are. *)
Theorem update_user_blank_names_ignored :
  forall (db : Store) (id : string)
         (email firstName lastName role : option string),
    firstName = None \/ firstName = Some EmptyString ->
    lastName = None \/ lastName = Some EmptyString ->
    profiles (fst (update_user db id email firstName lastName role))
    = profiles db.
Proof.
  intros db id email firstName lastName role Hf Hl.
  assert (Ht : Py.truthy_str firstName || Py.truthy_str lastName = false)
    by (destruct Hf as [->| ->], Hl as [->| ->]; reflexivity).
  unfold update_user. rewrite Ht.
  destruct (truthy_payload (mkUserPayload email role)).
  - destruct (User_update (users db) id (mkUserPayload email role))
      as [e|[rows [u|]]]; reflexivity.
  - destruct (Prisma.find_unique _ (users db)); reflexivity.
Qed.

Lemma update_user_blank_names_ignored_witness :
  profiles (fst (update_user Accounts.session "u1" None
                   (Some EmptyString) None (Some "Administrator")))
  = profiles Accounts.session.
Proof.
  apply (update_user_blank_names_ignored Accounts.session "u1" None
           (Some EmptyString) None (Some "Administrator")).
  - now right.
  - now left.
Defined.

(** X18.  When [update_user] succeeds, the user row found under [id]
    carries the provided email and role, keeps the stored value of each of
    the two that was not provided, and keeps its password; the response
    reports that row's id, email and role and echoes the two name
    arguments. *)
Theorem update_user_applies_user_fields :
  forall (db db' : Store) (id : string)
         (email firstName lastName role : option string)
         (resp : UpdateUserProfileResponse),
    update_user db id email firstName lastName role = (db', inr resp) ->
    exists u,
      Prisma.find_unique (fun v => (User.id v =? id)%string) (users db)
      = Some u
      /\ Prisma.find_unique (fun v => (User.id v =? id)%string) (users db')
         = Some (User.mk (User.id u)
                   (set_default email (User.email u))
                   (User.password u)
                   (set_default role (User.role u)))
      /\ resp
         = mkUpdateUserProfileResponse (User.id u)
             (Some (set_default email (User.email u)))
             firstName lastName
             (Some (set_default role (User.role u)))
             "User profile successfully updated.".
Proof.
  intros db db' id email firstName lastName role resp.
  unfold update_user.
  set (db1 := if Py.truthy_str firstName || Py.truthy_str lastName
              then _ else db).
  assert (Hu : users db1 = users db).
  { unfold db1.
    destruct (Py.truthy_str firstName || Py.truthy_str lastName);
      [|reflexivity].
    destruct (Prisma.find_unique _ (profiles db)); reflexivity. }
  destruct (truthy_payload (mkUserPayload email role)) eqn:Hp.
  - unfold User_update. rewrite Hu.
    destruct (Prisma.find_unique _ (users db)) as [u|] eqn:Hfind;
      [|simpl; discriminate].
    destruct (match payload_email (mkUserPayload email role) with
              | Some e => _
              | None => false
              end); simpl; [discriminate|].
    intros H. inversion H; subst; clear H. simpl.
    exists u. split; [reflexivity|]. split; [|reflexivity].
    rewrite (find_after_update User.id) by reflexivity.
    rewrite Hfind. reflexivity.
  - rewrite Hu.
    destruct (Prisma.find_unique _ (users db)) as [u|] eqn:Hfind;
      [|simpl; discriminate].
    intros H. inversion H; subst; clear H.
    destruct email, role; try discriminate. simpl.
    exists u. rewrite Hu, Hfind. destruct u. simpl. auto.
Qed.

Lemma update_user_applies_user_fields_witness :
  Prisma.find_unique (fun v => (User.id v =? "u1")%string)
    (users (fst (update_user Accounts.session "u1"
                   (Some "ada@analytical.org") None None None)))
  = Some (User.mk "u1" "ada@analytical.org"
            (Model.hashpw "correct horse") "Professional").
Proof.
  destruct (update_user_applies_user_fields Accounts.session
              (fst (update_user Accounts.session "u1"
                      (Some "ada@analytical.org") None None None))
              "u1" (Some "ada@analytical.org") None None None
              (mkUpdateUserProfileResponse "u1" (Some "ada@analytical.org")
                 None None (Some "Professional")
                 "User profile successfully updated."))
    as (u & Hu & Hu' & _).
  - vm_compute. reflexivity.
  - rewrite Hu'. vm_compute in Hu. inversion Hu. reflexivity.
Defined.

(** X19.  When at least one name is a non-empty string and the user has a
    profile row, that row takes every name that was provided and keeps the
    stored value of the one that was not, already before the user row is
    looked at: an update with [lastName] only keeps [firstName]; and a
    [firstName] given as the empty string beside a non-empty [lastName] is
    written as the empty string. *)
Theorem update_user_applies_profile_fields :
  forall (db : Store) (id : string)
         (email firstName lastName role : option string) (p : Profile.t),
    Py.truthy_str firstName || Py.truthy_str lastName = true ->
    Prisma.find_unique (fun q => (Profile.userId q =? id)%string)
      (profiles db) = Some p ->
    Prisma.find_unique (fun q => (Profile.userId q =? id)%string)
      (profiles (fst (update_user db id email firstName lastName role)))
    = Some (Profile.mk (Profile.userId p)
              (set_default firstName (Profile.firstName p))
              (set_default lastName (Profile.lastName p))).
Proof.
  intros db id email firstName lastName role p Ht Hp.
  assert (Hgoal :
            Prisma.find_unique (fun q => (Profile.userId q =? id)%string)
              (Profile_update (profiles db) id
                 (mkProfilePayload firstName lastName))
            = Some (Profile.mk (Profile.userId p)
                      (set_default firstName (Profile.firstName p))
                      (set_default lastName (Profile.lastName p)))).
  { unfold Profile_update.
    rewrite (find_after_update Profile.userId) by reflexivity.
    now rewrite Hp. }
  unfold update_user. rewrite Ht, Hp.
  destruct (truthy_payload (mkUserPayload email role)).
  - cbn [users].
    destruct (User_update (users db) id (mkUserPayload email role))
      as [e|[rows [u|]]]; exact Hgoal.
  - cbn [users].
    destruct (Prisma.find_unique _ (users db)); exact Hgoal.
Qed.

Lemma update_user_applies_profile_fields_witness :
  Prisma.find_unique (fun q => (Profile.userId q =? "u1")%string)
    (profiles (fst (update_user Accounts.session "u1" None
                      (Some EmptyString) (Some "King") None)))
  = Some (Profile.mk "u1" EmptyString "King").
Proof.
  apply (update_user_applies_profile_fields Accounts.session "u1" None
           (Some EmptyString) (Some "King") None Accounts.ada_profile).
  - reflexivity.
  - reflexivity.
Defined.

(** X20.  For a user without a profile row, an update that provides names
    only writes nothing at all and still answers with the success status,
    echoing the names it did not store. *)
Theorem update_user_without_profile :
  forall (db : Store) (id : string) (firstName lastName : option string)
         (u : User.t),
    Prisma.find_unique (fun q => (Profile.userId q =? id)%string)
      (profiles db) = None ->
    Prisma.find_unique (fun v => (User.id v =? id)%string) (users db)
    = Some u ->
    update_user db id None firstName lastName None
    = (db,
       inr (mkUpdateUserProfileResponse (User.id u) (Some (User.email u))
              firstName lastName (Some (User.role u))
              "User profile successfully updated.")).
Proof.
  intros db id firstName lastName u Hp Hu.
  unfold update_user. rewrite Hp. simpl.
  destruct (Py.truthy_str firstName || Py.truthy_str lastName);
    rewrite Hu; reflexivity.
Qed.

Lemma update_user_without_profile_witness :
  update_user MoreAccounts.no_profile "u1" None (Some "Augusta") None None
  = (MoreAccounts.no_profile,
     inr (mkUpdateUserProfileResponse "u1" (Some "ada@example.org")
            (Some "Augusta") None (Some "Professional")
            "User profile successfully updated.")).
Proof.
  apply (update_user_without_profile MoreAccounts.no_profile "u1"
           (Some "Augusta") None Accounts.ada).
  - reflexivity.
  - reflexivity.
Defined.

(** ** [login_user] *)

(** X21.  [login_user] returns a token exactly when a stored user has the
    presented email and [bcrypt.checkpw] accepts the presented password
    against that user's stored hash; the token then names the email as
    subject, expires 30 minutes after the clock reading, and is announced
    as valid for 1800 seconds. *)
Theorem login_user_token_iff :
  forall (B : Bcrypt) (J : Jose) (db : Store) (utcnow : Py.datetime)
         (email password : string) (r : UserLoginResponse),
    Login.login_user db utcnow email password = inr r
    <-> exists user,
        Prisma.find_unique (fun u => (User.email u =? email)%string)
          (users db) = Some user
        /\ checkpw password (User.password user) = inr true
        /\ r = mkUserLoginResponse
                 (jwt_encode
                    (mkClaims email (utcnow + Py.timedelta_minutes 30))
                    "your_secret_key_here" "HS256")
                 1800.
Proof.
  intros B J db utcnow email password r. unfold Login.login_user. split.
  - destruct (Prisma.find_unique _ (users db)) as [user|] eqn:Hu;
      [|discriminate].
    destruct (checkpw password (User.password user)) as [e|[|]] eqn:Hc;
      try discriminate.
    intros H. inversion H; subst; clear H.
    exists user. split; [reflexivity|]. split; [exact Hc|].
    apply find_unique_Some in Hu. destruct Hu as [_ He].
    apply String.eqb_eq in He. rewrite He. reflexivity.
  - intros (user & Hu & Hc & ->). rewrite Hu, Hc.
    apply find_unique_Some in Hu. destruct Hu as [_ He].
    apply String.eqb_eq in He. rewrite He. reflexivity.
Qed.

(** X22.  Every failure of [login_user] is either the uniform
    [Exception("Invalid login credentials.")] or an exception that
    [bcrypt.checkpw] itself raised on the stored hash of an existing user,
    which escapes unchanged. *)
Theorem login_user_failures :
  forall (B : Bcrypt) (J : Jose) (db : Store) (utcnow : Py.datetime)
         (email password : string) (e : Py.exn),
    Login.login_user db utcnow email password = inl e ->
    e = Py.Exception "Invalid login credentials."
    \/ exists user,
        Prisma.find_unique (fun u => (User.email u =? email)%string)
          (users db) = Some user
        /\ checkpw password (User.password user) = inl e.
Proof.
  intros B J db utcnow email password e. unfold Login.login_user.
  destruct (Prisma.find_unique _ (users db)) as [user|] eqn:Hu.
  - destruct (checkpw password (User.password user)) as [e'|[|]] eqn:Hc;
      intros H; inversion H; subst; clear H.
    + right. exists user. auto.
    + now left.
  - intros H. inversion H. now left.
Qed.

Lemma login_user_failures_witness :
  Py.Exception "Invalid login credentials."
  = Py.Exception "Invalid login credentials."
  \/ exists user,
      Prisma.find_unique (fun u => (User.email u =? "ada@example.org")%string)
        (users Accounts.session) = Some user
      /\ @checkpw Model.bcrypt "wrong horse" (User.password user)
         = inl (Py.Exception "Invalid login credentials.").
Proof.
  apply (login_user_failures Model.bcrypt Model.jose Accounts.session
           (Sample.at_ 10 0) "ada@example.org" "wrong horse").
  reflexivity.
Defined.

(** ** [update_availability] *)

Lemma update_availability_schedules (db : Store) (now : Py.datetime)
  (professional_id : string) (new_availability : bool) :
  schedules (fst (update_availability db now professional_id
                    new_availability))
  = PrismaMany.update_many (where_not_ended professional_id now)
      (set_available new_availability) (schedules db).
Proof. reflexivity. Qed.

Lemma where_not_ended_spec (professional_id : string) (now : Py.datetime)
  (s : Schedule.t) :
  where_not_ended professional_id now s = true <->
  Schedule.userId s = professional_id
  /\ Prisma.serialize_datetime now < Schedule.endTime s.
Proof.
  unfold where_not_ended.
  rewrite Bool.andb_true_iff, String.eqb_eq, Z.gtb_ltb, Z.ltb_lt.
  tauto.
Qed.

Lemma In_update_many (professional_id : string) (now : Py.datetime)
  (new_availability : bool) (rows : list Schedule.t) (s' : Schedule.t) :
  In s' (PrismaMany.update_many (where_not_ended professional_id now)
           (set_available new_availability) rows) ->
  exists s,
    In s rows
    /\ Schedule.id s' = Schedule.id s
    /\ Schedule.userId s' = Schedule.userId s
    /\ Schedule.startTime s' = Schedule.startTime s
    /\ Schedule.endTime s' = Schedule.endTime s
    /\ (where_not_ended professional_id now s = true ->
        Schedule.available s' = new_availability)
    /\ (where_not_ended professional_id now s = false -> s' = s).
Proof.
  unfold PrismaMany.update_many. intros Hin.
  apply List.in_map_iff in Hin. destruct Hin as (s & Hs & Hin).
  exists s. split; [exact Hin|].
  destruct (where_not_ended professional_id now s); subst s'; simpl;
    repeat split; trivial; discriminate.
Qed.

(** X23.  [update_availability] always answers with success, also when no
    schedule matches; it writes nothing but the [available] flag, sets it on
    every schedule of the professional that ends after [now], and leaves
    every other schedule row (other users, schedules that ended at or
    before [now]) and every other table as they were. *)
Theorem update_availability_frame :
  forall (db : Store) (now : Py.datetime) (professional_id : string)
         (new_availability : bool),
    let db' :=
      fst (update_availability db now professional_id new_availability) in
    snd (update_availability db now professional_id new_availability)
    = mkUpdateAvailabilityResponse true new_availability
        (Some "Professional's availability status updated successfully.")
    /\ users db' = users db /\ profiles db' = profiles db
    /\ appointments db' = appointments db
    /\ auth_tokens db' = auth_tokens db
    /\ List.map (fun s => (Schedule.id s, Schedule.userId s,
                           Schedule.startTime s, Schedule.endTime s,
                           Schedule.title s, Schedule.description s))
         (schedules db')
       = List.map (fun s => (Schedule.id s, Schedule.userId s,
                             Schedule.startTime s, Schedule.endTime s,
                             Schedule.title s, Schedule.description s))
           (schedules db)
    /\ (forall s, In s (schedules db') ->
                  Schedule.userId s = professional_id ->
                  now < Schedule.endTime s ->
                  Schedule.available s = new_availability)
    /\ List.filter
         (fun s => negb (where_not_ended professional_id now s))
         (schedules db')
       = List.filter
           (fun s => negb (where_not_ended professional_id now s))
           (schedules db).
Proof.
  intros db now professional_id new_availability db'.
  unfold db'. rewrite update_availability_schedules.
  repeat split; trivial.
  - unfold PrismaMany.update_many. rewrite List.map_map.
    apply List.map_ext. intros s.
    destruct (where_not_ended professional_id now s); reflexivity.
  - intros s' Hin Hu Hend.
    destruct (In_update_many _ _ _ _ _ Hin)
      as (s & _ & _ & Hsu & _ & Hse & Hset & _).
    apply Hset. apply where_not_ended_spec.
    pose proof (serialize_datetime_le now) as [Hcut _].
    split; [congruence|]. rewrite <- Hse. lia.
  - unfold PrismaMany.update_many.
    induction (schedules db) as [|s rows IH]; simpl; [reflexivity|].
    destruct (where_not_ended professional_id now s) eqn:E; simpl.
    + assert (E' : where_not_ended professional_id now
                     (set_available new_availability s) = true)
        by exact E.
      rewrite E'. simpl. exact IH.
    + rewrite E. simpl. now rewrite IH.
Qed.

(** X24.  Marking a professional unavailable holds for every query whose
    instant is after the update's clock reading, both as the client sends
    them (cut to whole milliseconds; the update's reading is the host's
    local time, sent as if it were UTC): such a [get_availability] answers
    [isAvailable = false], and when every stored schedule has
    [startTime <= endTime] it announces no next availability either. *)
Theorem unavailable_after_update_availability :
  forall (db : Store) (reading later : Py.datetime) (user : string),
    Prisma.serialize_datetime reading < Prisma.serialize_datetime later ->
    let db' := fst (update_availability db reading user false) in
    isAvailable (get_availability db' later user) = false
    /\ ((forall s, In s (schedules db) ->
                   Schedule.startTime s <= Schedule.endTime s) ->
        timeUntilNextAvailability (get_availability db' later user)
        = None).
Proof.
  intros db reading later user Hlt db'.
  pose proof (serialize_datetime_le later) as [Hcut _].
  assert (Hoff : forall s, In s (schedules db') ->
                           Schedule.userId s = user ->
                           Prisma.serialize_datetime reading
                           < Schedule.endTime s ->
                           Schedule.available s = false).
  { intros s' Hin Hu Hend. unfold db' in Hin.
    rewrite update_availability_schedules in Hin.
    destruct (In_update_many _ _ _ _ _ Hin)
      as (s & _ & _ & Hsu & _ & Hse & Hset & _).
    apply Hset. apply where_not_ended_spec. split; congruence. }
  destruct (current_schedule db' later user) as [cur|] eqn:Hc.
  - destruct (current_schedule_Some db' later user cur Hc)
      as (Hin & Hu & Hs & He & _).
    assert (Hb : Schedule.available (Schedule.row cur) = false
                 \/ Schedule.Appointment cur <> []).
    { left. apply Hoff; trivial. lia. }
    destruct (next_available_schedule db' later user) as [n|] eqn:Hn.
    + rewrite (get_availability_busy_next db' later user cur n Hc Hb Hn).
      simpl. split; [reflexivity|]. intros Hwf. exfalso.
      destruct (next_available_Some db' later user n Hn)
        as (Hnin & Hnu & Hnlt & Hna & _).
      assert (Hend : Prisma.serialize_datetime reading
                     < Schedule.endTime n).
      { unfold db' in Hnin.
        rewrite update_availability_schedules in Hnin.
        destruct (In_update_many _ _ _ _ _ Hnin)
          as (s & Hsin & _ & _ & Hst & Hse & _).
        specialize (Hwf s Hsin). lia. }
      rewrite (Hoff n Hnin Hnu Hend) in Hna. discriminate.
    + rewrite (get_availability_busy_last db' later user cur Hc Hb Hn).
      simpl. auto.
  - rewrite (get_availability_none db' later user Hc). simpl. auto.
Qed.

Lemma unavailable_after_update_availability_witness :
  isAvailable
    (get_availability
       (fst (update_availability Sample.free (Sample.at_ 10 0) "u1" false))
       (Sample.at_ 10 30) "u1")
  = false.
Proof.
  destruct (unavailable_after_update_availability Sample.free
              (Sample.at_ 10 0) (Sample.at_ 10 30) "u1") as [H _].
  - vm_compute. reflexivity.
  - exact H.
Defined.

(** On a host two hours ahead of UTC the reading at 10:30 UTC is 12:30, so
    the schedule that ends at 11:00 is outside the filter: a query a minute
    later still answers available. *)
Example update_availability_host_ahead_of_utc :
  isAvailable
    (get_availability
       (fst (update_availability Sample.free (Sample.at_ 12 30) "u1" false))
       (Sample.at_ 10 31) "u1")
  = true.
Proof. vm_compute. reflexivity. Qed.

(** The flag of a schedule that ends exactly at the reading is not written:
    a query at that same instant can still answer available. *)
Example update_availability_at_end_instant :
  isAvailable
    (get_availability
       (fst (update_availability Sample.free (Sample.at_ 11 0) "u1" false))
       (Sample.at_ 11 0) "u1")
  = true.
Proof. vm_compute. reflexivity. Qed.

(** X25.  After [update_availability(user, True)], a query whose instant is
    after the update's clock reading, both as the client sends them, and
    that selects a current schedule answers available exactly when no
    appointment is linked to that schedule. *)
Theorem available_after_update_availability :
  forall (db : Store) (reading later : Py.datetime) (user : string)
         (cur : Schedule.loaded),
    Prisma.serialize_datetime reading < Prisma.serialize_datetime later ->
    let db' := fst (update_availability db reading user true) in
    current_schedule db' later user = Some cur ->
    (isAvailable (get_availability db' later user) = true
     <-> Schedule.Appointment cur = []).
Proof.
  intros db reading later user cur Hlt db' Hc.
  destruct (current_schedule_Some db' later user cur Hc)
    as (Hin & Hu & Hs & He & _).
  assert (Ha : Schedule.available (Schedule.row cur) = true).
  { unfold db' in Hin. rewrite update_availability_schedules in Hin.
    destruct (In_update_many _ _ _ _ _ Hin)
      as (s & _ & _ & Hsu & _ & Hse & Hset & _).
    apply Hset. apply where_not_ended_spec. split; [congruence|lia]. }
  split.
  - intros Hav.
    destruct (Schedule.Appointment cur) as [|a l] eqn:Happ; [reflexivity|].
    exfalso.
    assert (Hb : Schedule.available (Schedule.row cur) = false
                 \/ Schedule.Appointment cur <> [])
      by (right; rewrite Happ; discriminate).
    destruct (busy_reports_forward_search db' later user cur Hc Hb)
      as [Hf _].
    congruence.
  - intros Hnil.
    now rewrite (get_availability_free_branch db' later user cur Hc Ha Hnil).
Qed.

Lemma available_after_update_availability_witness :
  isAvailable
    (get_availability
       (fst (update_availability Sample.overlap_off_first (Sample.at_ 10 0)
               "u1" true))
       (Sample.at_ 10 30) "u1")
  = true.
Proof.
  apply (available_after_update_availability Sample.overlap_off_first
           (Sample.at_ 10 0) (Sample.at_ 10 30) "u1"
           (Schedule.mk_loaded
              (set_available true Sample.morning_off) [])).
  - vm_compute. reflexivity.
  - vm_compute. reflexivity.
  - reflexivity.
Defined.

(** ** [update_schedule] *)

(** For an id that no schedule row has, [update_schedule] writes nothing
    and answers [success = False] with "Schedule not found.". *)
Lemma update_schedule_not_found :
  forall (db : Store) (id : string) (startTime endTime : Py.datetime)
         (title description : string) (available : bool),
    Prisma.find_unique (fun s => (Schedule.id s =? id)%string)
      (schedules db) = None ->
    update_schedule db id startTime endTime title description available
    = (db, mkUpdateScheduleResponse false "Schedule not found.").
Proof.
  intros db id startTime endTime title description available Hnone.
  unfold update_schedule. now rewrite Hnone.
Qed.

Lemma update_schedule_not_found_witness :
  update_schedule Sample.free "s404" (Sample.at_ 9 0) (Sample.at_ 9 30)
    "Rounds" "Ward B" true
  = (Sample.free, mkUpdateScheduleResponse false "Schedule not found.").
Proof.
  apply (update_schedule_not_found Sample.free "s404").
  reflexivity.
Defined.

(** X26.  For an id that a schedule row has, [update_schedule] answers
    [success = True]; the row found under that id afterwards carries the
    title, description and flag passed and the two instants passed cut to
    whole milliseconds, with the id and the owner it had; every row with
    another id and every other table is unchanged.  The times are stored
    also when [startTime] is after [endTime]. *)
Theorem update_schedule_found :
  forall (db : Store) (id : string) (startTime endTime : Py.datetime)
         (title description : string) (available : bool) (s : Schedule.t),
    Prisma.find_unique (fun x => (Schedule.id x =? id)%string)
      (schedules db) = Some s ->
    let db' :=
      fst (update_schedule db id startTime endTime title description
             available) in
    snd (update_schedule db id startTime endTime title description
           available)
    = mkUpdateScheduleResponse true "Schedule updated successfully."
    /\ Prisma.find_unique (fun x => (Schedule.id x =? id)%string)
         (schedules db')
       = Some (Schedule.mk (Schedule.id s) (Schedule.userId s)
                 (1000 * (startTime / 1000)) (1000 * (endTime / 1000))
                 title (Some description) available)
    /\ List.filter (fun x => negb (Schedule.id x =? id)%string)
         (schedules db')
       = List.filter (fun x => negb (Schedule.id x =? id)%string)
           (schedules db)
    /\ users db' = users db /\ profiles db' = profiles db
    /\ appointments db' = appointments db
    /\ auth_tokens db' = auth_tokens db.
Proof.
  intros db id startTime endTime title description available s Hs db'.
  unfold db', update_schedule. rewrite Hs.
  unfold Schedule_update. cbn [fst snd schedules users profiles
                                appointments auth_tokens].
  repeat split; trivial.
  - rewrite (find_after_update Schedule.id) by reflexivity.
    now rewrite Hs.
  - now apply (update_keeps_other_keys Schedule.id).
Qed.

(** The new start, 12:00:00.000999, is stored as 12:00:00.000, and it is
    after the new end. *)
Lemma update_schedule_found_witness :
  Prisma.find_unique (fun x => (Schedule.id x =? "s1")%string)
    (schedules
       (fst (update_schedule Sample.free "s1" (Sample.at_ 12 0 + 999)
               (Sample.at_ 9 0) "Rounds" "Ward B" false)))
  = Some (Schedule.mk "s1" "u1" (Sample.at_ 12 0) (Sample.at_ 9 0)
            "Rounds" (Some "Ward B") false).
Proof.
  destruct (update_schedule_found Sample.free "s1" (Sample.at_ 12 0 + 999)
              (Sample.at_ 9 0) "Rounds" "Ward B" false Sample.morning)
    as (_ & H & _).
  - reflexivity.
  - rewrite H. vm_compute. reflexivity.
Defined.

(** ** [get_schedule] *)

(** X27.  [get_schedule] raises [ValueError("Schedule with ID <id> not
    found")] exactly when no schedule row has the id. *)
Theorem get_schedule_not_found_iff :
  forall (db : Store) (id : string),
    get_schedule db id
    = inl (Py.ValueError ("Schedule with ID " ++ id ++ " not found")%string)
    <-> Prisma.find_unique (fun s => (Schedule.id s =? id)%string)
          (schedules db) = None.
Proof.
  intros db id. unfold get_schedule. split.
  - destruct (Prisma.find_unique _ (schedules db)) as [row|];
      [|reflexivity].
    destruct (include_schedule_User db row); discriminate.
  - now intros ->.
Qed.



(** X29.  [get_schedule] and [get_availability] agree on occupancy: when
    the schedule that [get_availability] selects is marked available and
    [get_schedule] answers for its id, the user is reported available
    exactly when that answer lists no appointment. *)
Theorem availability_agrees_with_get_schedule :
  forall (db : Store) (now : Py.datetime) (user : string)
         (cur : Schedule.loaded) (g : GetScheduleResponse),
    current_schedule db now user = Some cur ->
    Schedule.available (Schedule.row cur) = true ->
    get_schedule db (Schedule.id (Schedule.row cur)) = inr g ->
    (isAvailable (get_availability db now user) = true
     <-> resp_appointments g = []).
Proof.
  intros db now user cur g Hc Ha Hg.
  destruct (current_schedule_Some db now user cur Hc)
    as (_ & _ & _ & _ & Hl).
  assert (Happ : resp_appointments g = []
                 <-> Schedule.Appointment cur = []).
  { unfold get_schedule in Hg.
    destruct (Prisma.find_unique _ (schedules db)) as [row|] eqn:Hrow;
      [|discriminate].
    destruct (include_schedule_User db row); [|discriminate].
    inversion Hg; subst; clear Hg. simpl.
    apply find_unique_Some in Hrow. destruct Hrow as [_ Hid].
    apply String.eqb_eq in Hid.
    rewrite Hl. unfold linked_appointments, Prisma.include_Appointment.
    simpl. rewrite Hid.
    destruct (List.filter _ (appointments db)); simpl;
      split; congruence. }
  rewrite Happ. split.
  - intros Hav.
    destruct (Schedule.Appointment cur) as [|a l] eqn:E; [reflexivity|].
    exfalso.
    assert (Hb : Schedule.available (Schedule.row cur) = false
                 \/ Schedule.Appointment cur <> [])
      by (right; rewrite E; discriminate).
    destruct (busy_reports_forward_search db now user cur Hc Hb) as [Hf _].
    congruence.
  - intros Hnil.
    now rewrite (get_availability_free_branch db now user cur Hc Ha Hnil).
Qed.

Lemma availability_agrees_with_get_schedule_witness :
  isAvailable (get_availability MoreAccounts.shared (Sample.at_ 10 30) "u1")
  = true
  <-> [mkAppointmentBrief "a1" "Visit" (Sample.at_ 10 15)
         (Sample.at_ 10 45) None] = [].
Proof.
  exact (availability_agrees_with_get_schedule MoreAccounts.shared
           (Sample.at_ 10 30) "u1"
           (Prisma.include_Appointment MoreAccounts.shared
              Sample.morning_booked)
           (mkGetScheduleResponse "s3" (Sample.at_ 10 0)
              (Sample.at_ 11 0) "Consultation" None true
              (mkUserBrief "u1" "ada@example.org" "Professional")
              [mkAppointmentBrief "a1" "Visit" (Sample.at_ 10 15)
                 (Sample.at_ 10 45) None])
           eq_refl eq_refl eq_refl).
Defined.
